(** * Research Funding Graph Explorer: graph assembly and render preparation

    A shallow embedding of [app2.py]: the helper [add_node], the render
    routine [build_and_render_network] and the five view branches of the
    Streamlit script, followed by the properties of the assembled node set
    and edge list.

    Modelling choices.
    - A query row ([record.data()]) is a Python dict from column name to a
      scalar; it is a [gmap string value], and [r["col"]] raises [KeyError]
      when the column is absent.
    - The [nodes] dict is iterated by the render routine ([nodes.values()]),
      so its insertion order is observable: it is an insertion-ordered
      association list with the dict operations written out.
    - The script mutates the globals [nodes] and [edges] and talks to
      Streamlit and pyvis; both are threaded through a state-and-exception
      monad, the library calls being recorded in order on the page trace.
    - Streamlit, pandas and pyvis are libraries outside the repository.  Of
      their behaviour the model keeps the checks that make a call of this
      script raise: [net.add_node] asserts that the id is a [str] or an
      [int], [net.add_edge] asserts that both ends are ids of nodes already
      in the network, and [st.bar_chart] rejects a column name that the
      dataframe does not have.  What the libraries do with an accepted call
      is theirs; the trace records the call.
    - The graph store is external: each view takes the row list that
      [run_cypher] returned for its query. *)

From Stdlib Require Import ZArith String Ascii DecimalString.
From stdpp Require Import base tactics option list gmap strings fin_maps.

#[local] Set Warnings "-clear-no-such-hyp".

Open Scope Z_scope.
Open Scope string_scope.
Open Scope list_scope.

(** ** Python values *)

(** The scalars a row can carry: null, a store identifier, a name. *)
Inductive value : Type :=
  | VNone
  | VInt (z : Z)
  | VStr (s : string).

#[global] Instance value_eq_dec : EqDecision value.
Proof. solve_decision. Defined.

#[global] Instance value_inhabited : Inhabited value := populate VNone.

(** [x is None] *)
Definition is_None (v : value) : bool :=
  match v with VNone => true | _ => false end.

(** Truth value of a scalar, as [or] and [if] test it. *)
Definition truthy (v : value) : bool :=
  match v with
  | VNone => false
  | VInt z => negb (z =? 0)%Z
  | VStr s => negb (String.eqb s "")
  end.

(** [a or b] *)
Definition py_or (a b : value) : value := if truthy a then a else b.

(** [str(n)] for a length. *)
Definition str_of_nat (n : nat) : string := NilZero.string_of_uint (Nat.to_uint n).

(** ** Insertion-ordered dicts *)

Section dict.
Context {K V : Type} `{EqDecision K}.

Definition dict_keys (d : list (K * V)) : list K := d.*1.
Definition dict_values (d : list (K * V)) : list V := d.*2.

(** [k in d] *)
Definition dict_contains (d : list (K * V)) (k : K) : bool :=
  bool_decide (k ∈ dict_keys d).

(** [d.get(k)] *)
Fixpoint dict_get (d : list (K * V)) (k : K) : option V :=
  match d with
  | [] => None
  | (k', v) :: d' => if decide (k' = k) then Some v else dict_get d' k
  end.

(** [d[k] = v]: an existing key keeps its place, a new key goes last. *)
Fixpoint dict_setitem (d : list (K * V)) (k : K) (v : V) : list (K * V) :=
  match d with
  | [] => [(k, v)]
  | (k', v') :: d' =>
      if decide (k' = k) then (k', v) :: d' else (k', v') :: dict_setitem d' k v
  end.
End dict.

(** ** Graph nodes and [add_node] *)

(** The dict [{"id": .., "label": .., "group": ..}] that [add_node] stores. *)
Module Node.
Record t : Type := mk { id : value; label : value; group : string }.
End Node.

#[global] Instance node_eq_dec : EqDecision Node.t.
Proof. solve_decision. Defined.

Abbreviation node_dict := (list (value * Node.t)).
Abbreviation edge := (value * value)%type.

Definition add_node (nodes : node_dict) (node_id label : value) (group : string)
    : node_dict :=
  if is_None node_id then nodes
  else if negb (dict_contains nodes node_id)
  then dict_setitem nodes node_id
         (Node.mk node_id (py_or label (VStr group)) group)
  else nodes.

(** ** Script state, library calls and exceptions *)

Abbreviation row := (gmap string value).

(** The tooltip [f"{node['group'].title()}: {node['label']}"], kept as the
    two values it is formatted from: [str.title] follows Python's Unicode
    case tables. *)
Record tooltip : Type := Tooltip { tip_group : string; tip_label : value }.

(** The calls the script makes into Streamlit, pandas and pyvis, in the
    order it makes them.  [net_set_options] passes the fixed JSON literal of
    the source. *)
Inductive effect : Type :=
  | st_markdown (body : string)
  | st_warning (body : string)
  | st_success (body : string)
  | st_dataframe (df : list row)
  | st_bar_chart (df : list row) (x y : string)
  | Network_new (height width bgcolor font_color : string) (directed : bool)
  | net_barnes_hut
  | net_add_node (n_id label : value) (color : string) (title : tooltip)
  | net_add_edge (src dst : value)
  | net_set_options
  | net_save_graph (name : string)
  | open_read (name : string)
  | st_subheader (body : string)
  | st_caption (body : string)
  | st_html (height : Z) (scrolling : bool).

(** The calls that build or show a network. *)
Definition is_network_call (e : effect) : bool :=
  match e with
  | Network_new _ _ _ _ _ | net_barnes_hut | net_add_node _ _ _ _
  | net_add_edge _ _ | net_set_options | net_save_graph _ | open_read _
  | st_subheader _ | st_caption _ | st_html _ _ => true
  | _ => false
  end.

(** The script globals [nodes] and [edges], and the page rendered so far. *)
Record state : Type := State {
  nodes : node_dict;
  edges : list edge;
  page : list effect
}.

Definition set_nodes (d : node_dict) (s : state) : state :=
  State d (edges s) (page s).
Definition set_edges (l : list edge) (s : state) : state :=
  State (nodes s) l (page s).
Definition set_page (p : list effect) (s : state) : state :=
  State (nodes s) (edges s) p.

Inductive exn : Type :=
  | KeyError (key : string)
  | AssertionError
  | StreamlitAPIException.

(** A computation either returns or raises, and leaves a state behind in
    both cases. *)
Definition M (A : Type) : Type := state → (exn + A) * state.

#[global] Instance M_ret : MRet M := λ A a s, (inr a, s).
#[global] Instance M_bind : MBind M := λ A B f m s,
  match m s with
  | (inr a, s') => f a s'
  | (inl e, s') => (inl e, s')
  end.

Definition get_state : M state := λ s, (inr s, s).
Definition modify (f : state → state) : M unit := λ s, (inr tt, f s).
Definition raise {A} (e : exn) : M A := λ s, (inl e, s).

(** [r[k]] *)
Definition getitem (r : row) (k : string) : M value :=
  match r !! k with
  | Some v => mret v
  | None => raise (KeyError k)
  end.

(** [k in r] *)
Definition has_column (r : row) (k : string) : bool :=
  match r !! k with Some _ => true | None => false end.

Definition emit (e : effect) : M unit :=
  modify (λ s, set_page (page s ++ [e]) s).

(** [for x in xs: body] *)
Fixpoint for_each {A} (body : A → M unit) (xs : list A) : M unit :=
  match xs with
  | [] => mret tt
  | x :: xs' => body x;; for_each body xs'
  end.

(** [add_node(nodes, ..)] on the global dict, which it mutates in place. *)
Definition call_add_node (node_id label : value) (group : string) : M unit :=
  modify (λ s, set_nodes (add_node (nodes s) node_id label group) s).

(** [edges.append((src, dst))] *)
Definition edges_append (e : edge) : M unit :=
  modify (λ s, set_edges (edges s ++ [e]) s).

(** ** Rendering *)

Definition group_colors : gmap string string :=
  list_to_map [
    ("pi", "#3A7CA5");
    ("grant", "#F4A259");
    ("org", "#5B8E7D");
    ("funder", "#D1495B");
    ("system", "#735D78");
    ("theme", "#F6AE2D")
  ].

(** [group_colors.get(g, "#999999")] *)
Definition group_color (g : string) : string :=
  default "#999999" (group_colors !! g).

(** [net.add_node(node["id"], label=.., color=.., title=..)]; pyvis asserts
    [isinstance(n_id, str) or isinstance(n_id, int)]. *)
Definition render_node (node : Node.t) : M unit :=
  let color := group_color (Node.group node) in
  if is_None (Node.id node) then raise AssertionError
  else emit (net_add_node (Node.id node) (Node.label node) color
               (Tooltip (Node.group node) (Node.label node))).

(** [net.add_edge(src, dst)]; pyvis asserts that [src] and [dst] are among
    the ids of the nodes added so far, here [node_ids]. *)
Definition render_edge (node_ids : list value) (e : edge) : M unit :=
  let '(src, dst) := e in
  if bool_decide (src ∈ node_ids) && bool_decide (dst ∈ node_ids)
  then emit (net_add_edge src dst)
  else raise AssertionError.

Definition build_and_render_network
    (nodes : node_dict) (edges : list edge) (title : string) : M unit :=
  match nodes with
  | [] => emit (st_warning "No nodes to display for this query.")
  | _ :: _ =>
      emit (Network_new "700px" "100%" "#FFFFFF" "#000000" false);;
      emit net_barnes_hut;;
      for_each render_node (dict_values nodes);;
      for_each (render_edge (Node.id <$> dict_values nodes)) edges;;
      emit net_set_options;;
      emit (net_save_graph "graph.html");;
      emit (open_read "graph.html");;
      emit (st_subheader title);;
      emit (st_caption "You can drag nodes, zoom, and hover for details.");;
      emit (st_html 700 true)
  end.

(** ** The views *)

(** *** View 1: top PIs by grants led (table and bar chart, no graph) *)

Definition view1_doc : string := "
**View:** Top Principal Investigators ranked by number of grants they lead.
".

(** The columns of [pd.DataFrame(rows)] are the keys of the rows. *)
Definition df_has_column (df : list row) (k : string) : bool :=
  existsb (λ r, has_column r k) df.

(** [st.bar_chart(df, x=.., y=..)]; Streamlit raises when [df] lacks one of
    the two columns. *)
Definition bar_chart (df : list row) (x y : string) : M unit :=
  if df_has_column df x && df_has_column df y
  then emit (st_bar_chart df x y)
  else raise StreamlitAPIException.

Definition view1 (rows : list row) : M unit :=
  emit (st_markdown view1_doc);;
  match rows with
  | [] => emit (st_warning "No data returned for this query.")
  | _ :: _ =>
      emit (st_success ("Loaded " ++ str_of_nat (length rows) ++ " rows."));;
      emit (st_dataframe rows);;
      bar_chart rows "pi_name" "grants_led"
  end.

(** *** View 2: cancer-related PI-organization network *)

Definition view2_doc : string := "
**View:** Cancer-related grants and where they are held,
showing PIs, grants, and organizations.
".

Definition view2_body (r : row) : M unit :=
  pi_id ← getitem r "pi_id";
  pi_name ← getitem r "pi_name";
  grant_id ← getitem r "grant_id";
  grant_title ← getitem r "grant_title";
  org_id ← getitem r "org_id";
  org_name ← getitem r "org_name";
  call_add_node pi_id pi_name "pi";;
  call_add_node grant_id grant_title "grant";;
  call_add_node org_id org_name "org";;
  edges_append (pi_id, grant_id);;
  edges_append (grant_id, org_id).

Definition view2_assemble (rows : list row) : M unit :=
  modify (set_nodes []);;
  modify (set_edges []);;
  for_each view2_body rows.

Definition view2 (rows : list row) : M unit :=
  emit (st_markdown view2_doc);;
  match rows with
  | [] => emit (st_warning "No cancer-related grants found with this pattern.")
  | _ :: _ =>
      emit (st_success
              ("Loaded " ++ str_of_nat (length rows) ++ " PI–grant–org rows."));;
      view2_assemble rows;;
      s ← get_state;
      build_and_render_network (nodes s) (edges s)
        "Cancer-related PI–Organization network"
  end.

(** *** View 3: full ecosystem with Frascati-themed research themes *)

Definition view3_doc : string := "
**View:** Funding agencies, grants, PIs, organizations, institution systems,
and research themes (filtered to themes with `Frascati_theme` when present).
".

Definition view3_body (r : row) : M unit :=
  funder_id ← getitem r "funder_id";
  funder_name ← getitem r "funder_name";
  grant_id ← getitem r "grant_id";
  grant_title ← getitem r "grant_title";
  pi_id ← getitem r "pi_id";
  pi_name ← getitem r "pi_name";
  org_id ← getitem r "org_id";
  org_name ← getitem r "org_name";
  system_id ← getitem r "system_id";
  system_name ← getitem r "system_name";
  theme_id ← getitem r "theme_id";
  theme_name ← getitem r "theme_name";
  frascati_theme ← getitem r "frascati_theme";
  call_add_node funder_id funder_name "funder";;
  call_add_node grant_id grant_title "grant";;
  call_add_node pi_id pi_name "pi";;
  call_add_node org_id org_name "org";;
  call_add_node system_id system_name "system";;
  (if negb (is_None theme_id)
   then
     let label := py_or (py_or theme_name frascati_theme) (VStr "Theme") in
     call_add_node theme_id label "theme"
   else mret tt);;
  (if negb (is_None funder_id) && negb (is_None grant_id)
   then edges_append (funder_id, grant_id) else mret tt);;
  (if negb (is_None pi_id) && negb (is_None grant_id)
   then edges_append (pi_id, grant_id) else mret tt);;
  (if negb (is_None org_id) && negb (is_None grant_id)
   then edges_append (grant_id, org_id) else mret tt);;
  (if negb (is_None system_id) && negb (is_None org_id)
   then edges_append (org_id, system_id) else mret tt);;
  (if negb (is_None theme_id) && negb (is_None grant_id)
   then edges_append (grant_id, theme_id) else mret tt).

Definition view3_assemble (rows : list row) : M unit :=
  modify (set_nodes []);;
  modify (set_edges []);;
  for_each view3_body rows.

Definition view3 (rows : list row) : M unit :=
  emit (st_markdown view3_doc);;
  match rows with
  | [] => emit (st_warning "No ecosystem data returned.")
  | _ :: _ =>
      emit (st_success
              ("Loaded " ++ str_of_nat (length rows) ++ " ecosystem rows."));;
      view3_assemble rows;;
      s ← get_state;
      build_and_render_network (nodes s) (edges s)
        "Full funding ecosystem with Frascati-themed ResearchThemes"
  end.

(** *** View 4: PIs with multi-organization portfolios *)

Definition view4_doc : string := "
**View:** Principal Investigators who lead grants held at **more than one organization**.
".

Definition view4_body (r : row) : M unit :=
  pi_id ← getitem r "pi_id";
  pi_name ← getitem r "pi_name";
  grant_id ← getitem r "grant_id";
  grant_title ← getitem r "grant_title";
  org_id ← getitem r "org_id";
  org_name ← getitem r "org_name";
  call_add_node pi_id pi_name "pi";;
  call_add_node grant_id grant_title "grant";;
  call_add_node org_id org_name "org";;
  edges_append (pi_id, grant_id);;
  edges_append (grant_id, org_id).

Definition view4_assemble (rows : list row) : M unit :=
  modify (set_nodes []);;
  modify (set_edges []);;
  for_each view4_body rows.

Definition view4 (rows : list row) : M unit :=
  emit (st_markdown view4_doc);;
  match rows with
  | [] => emit (st_warning "No PIs found with grants at multiple organizations.")
  | _ :: _ =>
      emit (st_success
              ("Loaded " ++ str_of_nat (length rows) ++ " PI–grant–org rows."));;
      view4_assemble rows;;
      s ← get_state;
      build_and_render_network (nodes s) (edges s)
        "PIs with multi-organization grant portfolios"
  end.

(** *** View 5: MSU Mankato grant ecosystem *)

Definition view5_doc : string := "
**View:** Grants held at **Minnesota State University, Mankato**, showing PIs and funders.
".

Definition view5_body (r : row) : M unit :=
  pi_id ← getitem r "pi_id";
  pi_name ← getitem r "pi_name";
  grant_id ← getitem r "grant_id";
  grant_title ← getitem r "grant_title";
  funder_id ← getitem r "funder_id";
  funder_name ← getitem r "funder_name";
  org_id ← getitem r "org_id";
  org_name ← getitem r "org_name";
  call_add_node pi_id pi_name "pi";;
  call_add_node grant_id grant_title "grant";;
  call_add_node funder_id funder_name "funder";;
  call_add_node org_id org_name "org";;
  edges_append (pi_id, grant_id);;
  edges_append (grant_id, funder_id);;
  edges_append (grant_id, org_id).

Definition view5_assemble (rows : list row) : M unit :=
  modify (set_nodes []);;
  modify (set_edges []);;
  for_each view5_body rows.

Definition view5 (rows : list row) : M unit :=
  emit (st_markdown view5_doc);;
  match rows with
  | [] => emit (st_warning "No MSU Mankato–held grants found.")
  | _ :: _ =>
      emit (st_success
              ("Loaded " ++ str_of_nat (length rows)
               ++ " PI–grant–funder rows for MSU Mankato."));;
      view5_assemble rows;;
      s ← get_state;
      build_and_render_network (nodes s) (edges s)
        "MSU Mankato grant ecosystem (PIs, grants, funders)"
  end.

(** *** Dispatch on the sidebar choice *)

(** The body of the script below the helpers: [view] is the radio choice
    and [rows] what [run_cypher] returns for the query of that branch. *)
Definition app (view : string) (rows : list row) : M unit :=
  if String.eqb view "Top 10 PIs by Grants Led" then view1 rows
  else if String.eqb view "Cancer-related PI–Org network" then view2 rows
  else if String.eqb view "Full ecosystem (with Frascati-themed ResearchThemes)"
  then view3 rows
  else if String.eqb view "PIs with multi-organization portfolios" then view4 rows
  else if String.eqb view "MSU Mankato grant ecosystem" then view5 rows
  else mret tt.

(** The four views that assemble a graph. *)
Inductive graph_view : Type :=
  | CancerNetwork
  | FullEcosystem
  | MultiOrg
  | MSUMankato.

#[global] Instance graph_view_eq_dec : EqDecision graph_view.
Proof. solve_decision. Defined.

Definition view_name (v : graph_view) : string :=
  match v with
  | CancerNetwork => "Cancer-related PI–Org network"
  | FullEcosystem => "Full ecosystem (with Frascati-themed ResearchThemes)"
  | MultiOrg => "PIs with multi-organization portfolios"
  | MSUMankato => "MSU Mankato grant ecosystem"
  end.

(** The loop body of a view and its assembly phase, from the two fresh
    containers to the end of the loop. *)
Definition loop_body (v : graph_view) : row → M unit :=
  match v with
  | CancerNetwork => view2_body
  | FullEcosystem => view3_body
  | MultiOrg => view4_body
  | MSUMankato => view5_body
  end.

Definition assemble (v : graph_view) : list row → M unit :=
  match v with
  | CancerNetwork => view2_assemble
  | FullEcosystem => view3_assemble
  | MultiOrg => view4_assemble
  | MSUMankato => view5_assemble
  end.

(** ** The column specification of each view

    What a view reads from a row, as lists: the columns its query returns,
    the entity triplets it hands to [add_node] and the id pairs it may
    append, all in source order.  The statements below compare the loops
    with these. *)

(** The value of a column, [None] standing in for an absent one. *)
Definition col (r : row) (k : string) : value := default VNone (r !! k).

Definition columns (v : graph_view) : list string :=
  match v with
  | CancerNetwork | MultiOrg =>
      ["pi_id"; "pi_name"; "grant_id"; "grant_title"; "org_id"; "org_name"]
  | FullEcosystem =>
      ["funder_id"; "funder_name"; "grant_id"; "grant_title"; "pi_id"; "pi_name";
       "org_id"; "org_name"; "system_id"; "system_name";
       "theme_id"; "theme_name"; "frascati_theme"]
  | MSUMankato =>
      ["pi_id"; "pi_name"; "grant_id"; "grant_title"; "funder_id"; "funder_name";
       "org_id"; "org_name"]
  end.

Definition has_columns (v : graph_view) (r : row) : bool :=
  forallb (has_column r) (columns v).

(** Every row carries the columns of the view's query. *)
Definition rows_ok (v : graph_view) (rows : list row) : bool :=
  forallb (has_columns v) rows.

(** The column whose lookup raises first, if any. *)
Fixpoint first_missing (r : row) (cols : list string) : string :=
  match cols with
  | [] => ""
  | k :: ks => if has_column r k then first_missing r ks else k
  end.

Definition missing (v : graph_view) (r : row) : string :=
  first_missing r (columns v).

Definition theme_label (r : row) : value :=
  py_or (py_or (col r "theme_name") (col r "frascati_theme")) (VStr "Theme").

Definition declared_nodes (v : graph_view) (r : row) : list (value * value * string) :=
  match v with
  | CancerNetwork | MultiOrg =>
      [(col r "pi_id", col r "pi_name", "pi");
       (col r "grant_id", col r "grant_title", "grant");
       (col r "org_id", col r "org_name", "org")]
  | FullEcosystem =>
      [(col r "funder_id", col r "funder_name", "funder");
       (col r "grant_id", col r "grant_title", "grant");
       (col r "pi_id", col r "pi_name", "pi");
       (col r "org_id", col r "org_name", "org");
       (col r "system_id", col r "system_name", "system");
       (col r "theme_id", theme_label r, "theme")]
  | MSUMankato =>
      [(col r "pi_id", col r "pi_name", "pi");
       (col r "grant_id", col r "grant_title", "grant");
       (col r "funder_id", col r "funder_name", "funder");
       (col r "org_id", col r "org_name", "org")]
  end.

Definition declared_edges (v : graph_view) (r : row) : list edge :=
  match v with
  | CancerNetwork | MultiOrg =>
      [(col r "pi_id", col r "grant_id"); (col r "grant_id", col r "org_id")]
  | FullEcosystem =>
      [(col r "funder_id", col r "grant_id");
       (col r "pi_id", col r "grant_id");
       (col r "grant_id", col r "org_id");
       (col r "org_id", col r "system_id");
       (col r "grant_id", col r "theme_id")]
  | MSUMankato =>
      [(col r "pi_id", col r "grant_id");
       (col r "grant_id", col r "funder_id");
       (col r "grant_id", col r "org_id")]
  end.

Definition both_non_null (e : edge) : bool :=
  negb (is_None e.1) && negb (is_None e.2).

(** Only the full-ecosystem loop tests the endpoints before appending. *)
Definition appended_edges (v : graph_view) (r : row) : list edge :=
  match v with
  | FullEcosystem => List.filter both_non_null (declared_edges v r)
  | _ => declared_edges v r
  end.

(** The node a triplet becomes when [add_node] stores it. *)
Definition node_of (c : value * value * string) : Node.t :=
  Node.mk c.1.1 (py_or c.1.2 (VStr c.2)) c.2.

Definition add_nodes (d : node_dict) (cs : list (value * value * string)) : node_dict :=
  foldl (λ d c, add_node d c.1.1 c.1.2 c.2) d cs.

(** One pass of a loop body over a row that has its columns. *)
Definition row_step (v : graph_view) (r : row) (s : state) : state :=
  State (add_nodes (nodes s) (declared_nodes v r))
        (edges s ++ appended_edges v r)
        (page s).

(** The first contribution for an id, among triplets in arrival order. *)
Definition first_write (k : value) (cs : list (value * value * string)) : option Node.t :=
  if is_None k then None
  else node_of <$> head (List.filter (λ c, bool_decide (c.1.1 = k)) cs).

(** Every stored node carries its own key as ["id"]. *)
Definition keyed (d : node_dict) : Prop := Forall (λ kn, Node.id kn.2 = kn.1) d.

(** The state after the loop body has run over every row. *)
Definition run_rows (v : graph_view) (rows : list row) (s : state) : state :=
  foldl (λ s r, row_step v r s) s rows.

(** ** What the page shows *)

(** The pyvis call [build_and_render_network] makes for a node. *)
Definition node_call (node : Node.t) : effect :=
  net_add_node (Node.id node) (Node.label node) (group_color (Node.group node))
    (Tooltip (Node.group node) (Node.label node)).

Definition edge_call (e : edge) : effect := net_add_edge e.1 e.2.

(** The elements a loop gets through when it stops at the first one that
    fails a check. *)
Fixpoint passed {A} (ok : A → bool) (l : list A) : list A :=
  match l with
  | [] => []
  | x :: l' => if ok x then x :: passed ok l' else []
  end.

(** The two pyvis assertions. *)
Definition node_ok (n : Node.t) : bool := negb (is_None (Node.id n)).

Definition edge_ok (node_ids : list value) (e : edge) : bool :=
  bool_decide (e.1 ∈ node_ids) && bool_decide (e.2 ∈ node_ids).

(** How one [build_and_render_network] ends. *)
Definition render_outcome (d : node_dict) (es : list edge) : exn + unit :=
  match d with
  | [] => inr tt
  | _ :: _ =>
      if forallb node_ok (dict_values d)
         && forallb (edge_ok (Node.id <$> dict_values d)) es
      then inr tt
      else inl AssertionError
  end.

(** All the calls of one [build_and_render_network], in order, up to its
    end or to the assertion that stops it. *)
Definition rendering (d : node_dict) (es : list edge) (title : string) : list effect :=
  match d with
  | [] => [st_warning "No nodes to display for this query."]
  | _ :: _ =>
      [Network_new "700px" "100%" "#FFFFFF" "#000000" false; net_barnes_hut]
      ++ (node_call <$> passed node_ok (dict_values d))
      ++ (if forallb node_ok (dict_values d)
          then (edge_call <$> passed (edge_ok (Node.id <$> dict_values d)) es)
               ++ (if forallb (edge_ok (Node.id <$> dict_values d)) es
                   then [net_set_options; net_save_graph "graph.html";
                         open_read "graph.html";
                         st_subheader title;
                         st_caption "You can drag nodes, zoom, and hover for details.";
                         st_html 700 true]
                   else [])
          else [])
  end.

Definition view_doc (v : graph_view) : string :=
  match v with
  | CancerNetwork => view2_doc
  | FullEcosystem => view3_doc
  | MultiOrg => view4_doc
  | MSUMankato => view5_doc
  end.

(** The warning of a view's empty-rows branch. *)
Definition no_results_notice (v : graph_view) : string :=
  match v with
  | CancerNetwork => "No cancer-related grants found with this pattern."
  | FullEcosystem => "No ecosystem data returned."
  | MultiOrg => "No PIs found with grants at multiple organizations."
  | MSUMankato => "No MSU Mankato–held grants found."
  end.

Definition loaded_notice (v : graph_view) (n : nat) : string :=
  match v with
  | CancerNetwork | MultiOrg => "Loaded " ++ str_of_nat n ++ " PI–grant–org rows."
  | FullEcosystem => "Loaded " ++ str_of_nat n ++ " ecosystem rows."
  | MSUMankato => "Loaded " ++ str_of_nat n ++ " PI–grant–funder rows for MSU Mankato."
  end.

Definition network_title (v : graph_view) : string :=
  match v with
  | CancerNetwork => "Cancer-related PI–Organization network"
  | FullEcosystem => "Full funding ecosystem with Frascati-themed ResearchThemes"
  | MultiOrg => "PIs with multi-organization grant portfolios"
  | MSUMankato => "MSU Mankato grant ecosystem (PIs, grants, funders)"
  end.

(** The group tags the color table knows. *)
Definition known_groups : list string :=
  ["pi"; "grant"; "org"; "funder"; "system"; "theme"].

(** How often a pair occurs in an edge list. *)
Definition occurrences (e : edge) (l : list edge) : nat :=
  length (List.filter (λ x, bool_decide (x = e)) l).

(** The pairs of a full-ecosystem row that do not involve its theme. *)
Definition themeless_edges (r : row) : list edge :=
  [(col r "funder_id", col r "grant_id");
   (col r "pi_id", col r "grant_id");
   (col r "grant_id", col r "org_id");
   (col r "org_id", col r "system_id")].

Definition themeless_nodes (r : row) : list (value * value * string) :=
  [(col r "funder_id", col r "funder_name", "funder");
   (col r "grant_id", col r "grant_title", "grant");
   (col r "pi_id", col r "pi_name", "pi");
   (col r "org_id", col r "org_name", "org");
   (col r "system_id", col r "system_name", "system")].

(** ** Partial runs, sizes and the page read back *)

(** The rows a loop gets through: those before the first row that lacks a
    column. *)
Fixpoint consumed (v : graph_view) (rows : list row) : list row :=
  match rows with
  | [] => []
  | r :: rows' => if has_columns v r then r :: consumed v rows' else []
  end.

(** The ids a row hands to [add_node], in source order. *)
Definition declared_ids (v : graph_view) (r : row) : list value :=
  (declared_nodes v r).*1.*1.

(** How many [add_node] calls and how many [edges.append] statements a loop
    body has. *)
Definition triplets_per_row (v : graph_view) : nat :=
  match v with
  | CancerNetwork | MultiOrg => 3
  | FullEcosystem => 6
  | MSUMankato => 4
  end.

Definition pairs_per_row (v : graph_view) : nat :=
  match v with
  | CancerNetwork | MultiOrg => 2
  | FullEcosystem => 5
  | MSUMankato => 3
  end.

(** The ids among [ids] that are new with respect to [seen], each once, in
    order of first appearance. *)
Fixpoint fresh_ids (seen ids : list value) : list value :=
  match ids with
  | [] => []
  | i :: ids' =>
      if is_None i || bool_decide (i ∈ seen) then fresh_ids seen ids'
      else i :: fresh_ids (seen ++ [i]) ids'
  end.

(** The node ids and the edges that a page handed to pyvis. *)
Definition added_node_ids (p : list effect) : list value :=
  omap (λ e, match e with net_add_node i _ _ _ => Some i | _ => None end) p.

Definition added_edges (p : list effect) : list edge :=
  omap (λ e, match e with net_add_edge a b => Some (a, b) | _ => None end) p.

Definition is_Network_new (e : effect) : bool :=
  match e with Network_new _ _ _ _ _ => true | _ => false end.

(** A test on every id that the rows of a view declare. *)
Definition all_ids (p : value → bool) (v : graph_view) (rows : list row) : bool :=
  forallb (λ r, forallb p (declared_ids v r)) rows.

Definition non_null (i : value) : bool := negb (is_None i).

(** ** Sample rows *)

(** A row as a dict literal. *)
Definition row_of (l : list (string * value)) : row := list_to_map l.

(** The state a script run starts from. *)
Definition start : state := State [] [] [].

(** A PI-grant-organization row, as views 2 and 4 read it. *)
Definition pgo_row (pi_id pi_name grant_id grant_title org_id org_name : value) : row :=
  row_of [("pi_id", pi_id); ("pi_name", pi_name);
          ("grant_id", grant_id); ("grant_title", grant_title);
          ("org_id", org_id); ("org_name", org_name)].

Definition row_a : row :=
  pgo_row (VInt 1) (VStr "A") (VInt 10) (VStr "G1") (VInt 100) (VStr "Org1").

Definition row_a' : row :=
  pgo_row (VInt 1) (VStr "A") (VInt 10) (VStr "G1") (VInt 200) (VStr "Org2").

Definition row_null_pi : row :=
  pgo_row VNone VNone (VInt 10) (VStr "G1") (VInt 100) (VStr "Org1").

Definition row_42_first : row :=
  pgo_row (VInt 42) (VStr "Ada") (VInt 10) (VStr "G1") (VInt 100) (VStr "Org1").

Definition row_42_second : row :=
  pgo_row (VInt 42) (VStr "Grace") (VInt 11) (VStr "G2") (VInt 100) (VStr "Org1").

(** A full-ecosystem row. *)
Definition eco_row (funder_id grant_id pi_id org_id system_id theme_id
                    theme_name frascati_theme : value) : row :=
  row_of [("funder_id", funder_id); ("funder_name", VStr "NSF");
          ("grant_id", grant_id); ("grant_title", VStr "G1");
          ("pi_id", pi_id); ("pi_name", VStr "A");
          ("org_id", org_id); ("org_name", VStr "Org1");
          ("system_id", system_id); ("system_name", VStr "Sys");
          ("theme_id", theme_id); ("theme_name", theme_name);
          ("frascati_theme", frascati_theme)].

Definition row_no_theme : row :=
  eco_row (VInt 7) (VInt 10) (VInt 1) (VInt 100) VNone VNone VNone VNone.

Definition row_theme : row :=
  eco_row (VInt 7) (VInt 10) VNone (VInt 100) (VInt 5) (VInt 60) VNone
          (VStr "Medical sciences").

(** A row of view 2 whose query result lacks the organization columns. *)
Definition row_without_org : row :=
  row_of [("pi_id", VInt 1); ("pi_name", VStr "A");
          ("grant_id", VInt 10); ("grant_title", VStr "G1")].

(** A row whose three ids are all null. *)
Definition row_all_null : row :=
  pgo_row VNone (VStr "A") VNone (VStr "G1") VNone (VStr "Org1").

(** * Properties *)

(** ** The monad *)

Lemma bind_run {A B} (m : M A) (f : A → M B) s :
  (m ≫= f) s = match m s with
               | (inr a, s') => f a s'
               | (inl e, s') => (inl e, s')
               end.
Proof. reflexivity. Qed.

Lemma getitem_run (r : row) k s :
  getitem r k s = match r !! k with
                  | Some v => (inr v, s)
                  | None => (inl (KeyError k), s)
                  end.
Proof. unfold getitem. by destruct (r !! k). Qed.

Lemma modify_run f s : modify f s = (inr tt, f s).
Proof. reflexivity. Qed.

Lemma mret_run {A} (a : A) s : (mret a : M A) s = (inr a, s).
Proof. reflexivity. Qed.

Lemma add_node_None (d : node_dict) l g : add_node d VNone l g = d.
Proof. reflexivity. Qed.

(** Reading the columns of a row, one [r[k]] at a time. *)
Lemma read_column (r : row) k ks (f : value → M unit) (X : (exn + unit) * state) s :
  (∀ x, r !! k = Some x →
        f x s = if forallb (has_column r) ks then X
                else (inl (KeyError (first_missing r ks)), s)) →
  (getitem r k ≫= f) s =
    if forallb (has_column r) (k :: ks) then X
    else (inl (KeyError (first_missing r (k :: ks))), s).
Proof.
  intros Hf. rewrite bind_run, getitem_run. cbn [forallb first_missing].
  unfold has_column at 1 3. destruct (r !! k) as [x|] eqn:Hk.
  - rewrite (Hf x eq_refl). reflexivity.
  - reflexivity.
Qed.

Ltac read_columns :=
  repeat (apply read_column; intros ? ?); cbn [forallb first_missing].

Ltac known_columns :=
  unfold col;
  repeat match goal with H : _ !! _ = Some _ |- _ => rewrite H; clear H end;
  cbn [default from_option id].

Lemma call_add_node_run i l g s :
  call_add_node i l g s = (inr tt, set_nodes (add_node (nodes s) i l g) s).
Proof. reflexivity. Qed.

Lemma edges_append_run e s :
  edges_append e s = (inr tt, set_edges (edges s ++ [e]) s).
Proof. reflexivity. Qed.

Lemma guarded_add_node_run i l g s :
  (if negb (is_None i) then call_add_node i l g else mret tt) s
  = (inr tt, set_nodes (add_node (nodes s) i l g) s).
Proof. destruct i; try reflexivity. by destruct s. Qed.

Lemma guarded_append_run (b : bool) e s :
  (if b then edges_append e else mret tt) s
  = (inr tt, set_edges (edges s ++ (if b then [e] else [])) s).
Proof.
  destruct b; [reflexivity|]. destruct s; cbn. by rewrite app_nil_r.
Qed.

Ltac run_body :=
  repeat (rewrite bind_run;
          first [ rewrite call_add_node_run | rewrite edges_append_run
                | rewrite guarded_add_node_run | rewrite guarded_append_run ];
          cbn beta iota);
  first [ rewrite call_add_node_run | rewrite edges_append_run
        | rewrite guarded_add_node_run | rewrite guarded_append_run ];
  unfold add_nodes;
  cbn [foldl nodes edges page set_nodes set_edges fst snd];
  rewrite <- ?app_assoc.

Lemma body_run v r s :
  loop_body v r s =
    if has_columns v r then (inr tt, row_step v r s)
    else (inl (KeyError (missing v r)), s).
Proof.
  destruct v; unfold loop_body, has_columns, missing, columns.
  - unfold view2_body. read_columns.
    unfold row_step, declared_nodes, appended_edges, declared_edges.
    known_columns. by run_body.
  - unfold view3_body. read_columns.
    unfold row_step, declared_nodes, appended_edges, declared_edges, theme_label.
    known_columns. run_body. do 3 f_equal.
    unfold both_non_null. cbn [fst snd List.filter].
    repeat match goal with
           | |- context [is_None ?x] => destruct (is_None x)
           end; reflexivity.
  - unfold view4_body. read_columns.
    unfold row_step, declared_nodes, appended_edges, declared_edges.
    known_columns. by run_body.
  - unfold view5_body. read_columns.
    unfold row_step, declared_nodes, appended_edges, declared_edges.
    known_columns. by run_body.
Qed.

(** ** Dicts *)

Section dict_facts.
Context {K V : Type} `{EqDecision K}.
Implicit Types (d : list (K * V)) (k : K) (v : V).

Lemma dict_get_None d k : dict_get d k = None ↔ k ∉ dict_keys d.
Proof.
  unfold dict_keys. induction d as [|[k' v'] d IH]; cbn.
  - split; [intros _; apply not_elem_of_nil | done].
  - rewrite not_elem_of_cons. destruct (decide (k' = k)) as [->|Hne].
    + split; [done | intros [? _]; done].
    + rewrite IH. split; [intros ?; split; [congruence | done] | intros [_ ?]; done].
Qed.

Lemma dict_get_Some_elem d k v : dict_get d k = Some v → (k, v) ∈ d.
Proof.
  induction d as [|[k' v'] d IH]; cbn; [done|].
  destruct (decide (k' = k)) as [->|Hne].
  - intros [= ->]. apply list_elem_of_here.
  - intros ?. apply list_elem_of_further. auto.
Qed.

Lemma dict_get_NoDup d k v :
  NoDup (dict_keys d) → (k, v) ∈ d → dict_get d k = Some v.
Proof.
  unfold dict_keys. induction d as [|[k' v'] d IH]; cbn.
  - intros _ ?%elem_of_nil. done.
  - rewrite NoDup_cons. intros [Hk' Hd] [Heq|Hin]%elem_of_cons.
    + injection Heq as -> ->. by rewrite decide_True.
    + destruct (decide (k' = k)) as [->|Hne]; [|auto].
      exfalso. apply Hk'. apply list_elem_of_fmap. by exists (k, v).
Qed.

Lemma dict_get_app d d' k :
  dict_get (d ++ d') k = match dict_get d k with
                         | Some v => Some v
                         | None => dict_get d' k
                         end.
Proof.
  induction d as [|[k' v'] d IH]; cbn; [done|].
  by destruct (decide (k' = k)).
Qed.

Lemma dict_setitem_fresh d k v :
  k ∉ dict_keys d → dict_setitem d k v = d ++ [(k, v)].
Proof.
  unfold dict_keys. induction d as [|[k' v'] d IH]; cbn; [done|].
  rewrite not_elem_of_cons. intros [Hne Hk].
  rewrite decide_False by congruence. by rewrite IH.
Qed.

Lemma dict_contains_true d k : dict_contains d k = true ↔ k ∈ dict_keys d.
Proof. unfold dict_contains. by rewrite bool_decide_eq_true. Qed.

Lemma dict_contains_false d k : dict_contains d k = false ↔ k ∉ dict_keys d.
Proof. unfold dict_contains. by rewrite bool_decide_eq_false. Qed.
End dict_facts.

(** ** [add_node] *)

Lemma is_None_true v : is_None v = true ↔ v = VNone.
Proof. by destruct v. Qed.

Lemma is_None_false v : is_None v = false ↔ v ≠ VNone.
Proof. by destruct v. Qed.

(** [add_node] either leaves the dict alone or appends one fresh entry. *)
Lemma add_node_cases (d : node_dict) i l g :
  (add_node d i l g = d ∧ (i = VNone ∨ i ∈ dict_keys d))
  ∨ (add_node d i l g = d ++ [(i, node_of (i, l, g))]
     ∧ i ≠ VNone ∧ i ∉ dict_keys d).
Proof.
  unfold add_node. destruct (is_None i) eqn:Hi.
  - left. apply is_None_true in Hi. auto.
  - apply is_None_false in Hi. destruct (dict_contains d i) eqn:Hc; cbn.
    + left. apply dict_contains_true in Hc. auto.
    + right. apply dict_contains_false in Hc.
      by rewrite dict_setitem_fresh.
Qed.

Lemma add_node_present (d : node_dict) i l g :
  i ∈ dict_keys d → add_node d i l g = d.
Proof.
  intros Hin. destruct (add_node_cases d i l g) as [[? _]|(_ & _ & ?)]; done.
Qed.

Lemma add_node_keys (d : node_dict) i l g k :
  k ∈ dict_keys (add_node d i l g) ↔ k ∈ dict_keys d ∨ (k = i ∧ i ≠ VNone).
Proof.
  destruct (add_node_cases d i l g) as [[-> Hi]|(-> & Hn & Hf)].
  - split; [auto|]. intros [?|[-> ?]]; [done|]. by destruct Hi.
  - unfold dict_keys. rewrite fmap_app, elem_of_app. cbn.
    rewrite list_elem_of_singleton. naive_solver.
Qed.

Lemma add_node_get (d : node_dict) i l g k :
  dict_get (add_node d i l g) k =
    match dict_get d k with
    | Some n => Some n
    | None => if decide (i = k)
              then if is_None i then None else Some (node_of (i, l, g))
              else None
    end.
Proof.
  destruct (add_node_cases d i l g) as [[-> Hi]|(-> & Hn & Hf)].
  - destruct (dict_get d k) eqn:Hk; [done|].
    destruct (decide (i = k)) as [->|]; [|done].
    destruct Hi as [->|Hin]; [done|]. by apply dict_get_None in Hk.
  - rewrite dict_get_app. destruct (dict_get d k); [done|]. cbn.
    destruct (decide (i = k)); [|done]. apply is_None_false in Hn. by rewrite Hn.
Qed.

Lemma add_node_NoDup (d : node_dict) i l g :
  NoDup (dict_keys d) → NoDup (dict_keys (add_node d i l g)).
Proof.
  intros Hd. destruct (add_node_cases d i l g) as [[-> _]|(-> & _ & Hf)]; [done|].
  unfold dict_keys in *. rewrite fmap_app. cbn.
  apply NoDup_app. split_and!; [done| |apply NoDup_singleton].
  intros x Hx ->%list_elem_of_singleton. done.
Qed.

Lemma add_node_keyed (d : node_dict) i l g : keyed d → keyed (add_node d i l g).
Proof.
  intros Hd. destruct (add_node_cases d i l g) as [[-> _]|(-> & _ & _)]; [done|].
  apply Forall_app. split; [done|]. by apply Forall_singleton.
Qed.

(** *** Several triplets in a row *)

Lemma add_nodes_cons d c cs :
  add_nodes d (c :: cs) = add_nodes (add_node d c.1.1 c.1.2 c.2) cs.
Proof. reflexivity. Qed.

Lemma add_nodes_app d cs cs' :
  add_nodes d (cs ++ cs') = add_nodes (add_nodes d cs) cs'.
Proof. apply foldl_app. Qed.

Lemma add_nodes_keys d cs k :
  k ∈ dict_keys (add_nodes d cs)
  ↔ k ∈ dict_keys d ∨ (k ≠ VNone ∧ k ∈ cs.*1.*1).
Proof.
  revert d. induction cs as [|c cs IH]; intros d.
  - cbn. rewrite elem_of_nil. naive_solver.
  - rewrite add_nodes_cons, IH, add_node_keys. cbn. rewrite elem_of_cons.
    naive_solver.
Qed.

Lemma add_nodes_NoDup d cs :
  NoDup (dict_keys d) → NoDup (dict_keys (add_nodes d cs)).
Proof.
  revert d. induction cs as [|c cs IH]; intros d Hd; [done|].
  rewrite add_nodes_cons. by apply IH, add_node_NoDup.
Qed.

Lemma add_nodes_keyed d cs : keyed d → keyed (add_nodes d cs).
Proof.
  revert d. induction cs as [|c cs IH]; intros d Hd; [done|].
  rewrite add_nodes_cons. by apply IH, add_node_keyed.
Qed.

Lemma first_write_cons k c cs :
  first_write k (c :: cs) =
    if is_None k then None
    else if decide (c.1.1 = k) then Some (node_of c) else first_write k cs.
Proof.
  unfold first_write. destruct (is_None k); [done|]. cbn.
  destruct (decide (c.1.1 = k)) as [Heq|Hne].
  - by rewrite bool_decide_eq_true_2.
  - by rewrite bool_decide_eq_false_2.
Qed.

(** The dict after a run of [add_node] calls: what was there stays, and a
    new id gets the node of its first triplet. *)
Lemma add_nodes_get d cs k :
  dict_get (add_nodes d cs) k =
    match dict_get d k with
    | Some n => Some n
    | None => first_write k cs
    end.
Proof.
  revert d. induction cs as [|c cs IH]; intros d.
  - cbn. destruct (dict_get d k); [done|]. unfold first_write. by destruct (is_None k).
  - rewrite add_nodes_cons, IH, add_node_get, first_write_cons.
    destruct c as [[i l] g]; cbn [fst snd].
    destruct (dict_get d k); [done|].
    destruct (decide (i = k)) as [->|Hne].
    + destruct (is_None k) eqn:Hk; [|done].
      unfold first_write. by rewrite Hk.
    + unfold first_write. by destruct (is_None k).
Qed.

(** ** The loops *)

Lemma for_each_cons {A} (body : A → M unit) x xs s :
  for_each body (x :: xs) s = (body x ≫= λ _, for_each body xs) s.
Proof. reflexivity. Qed.

Lemma rows_ok_cons v r rows :
  rows_ok v (r :: rows) = true ↔ has_columns v r = true ∧ rows_ok v rows = true.
Proof. unfold rows_ok. cbn [forallb]. apply andb_true_iff. Qed.

Lemma for_each_ok v rows s :
  rows_ok v rows = true →
  for_each (loop_body v) rows s = (inr tt, run_rows v rows s).
Proof.
  revert s. induction rows as [|r rows IH]; intros s Hok; [done|].
  apply rows_ok_cons in Hok as [Hr Hrows].
  rewrite for_each_cons, bind_run, body_run, Hr. by apply IH.
Qed.

(** A property of the state that every pass keeps holds when the loop
    stops, at its end or at a raise. *)
Lemma for_each_invariant_on v (P : state → Prop) (Q : row → Prop) rows :
  Forall Q rows →
  (∀ r s, Q r → P s → P (row_step v r s)) →
  ∀ s, P s → P (for_each (loop_body v) rows s).2.
Proof.
  intros Hrows Hstep. induction Hrows as [|r rows Hr Hrows IH]; intros s Hs; [done|].
  rewrite for_each_cons, bind_run, body_run.
  destruct (has_columns v r); [by apply IH, Hstep | done].
Qed.

Lemma for_each_invariant v (P : state → Prop) :
  (∀ r s, P s → P (row_step v r s)) →
  ∀ rows s, P s → P (for_each (loop_body v) rows s).2.
Proof.
  intros Hstep rows. apply (for_each_invariant_on v P (λ _, True)).
  - by apply Forall_true.
  - intros r s _. apply Hstep.
Qed.

Lemma assemble_run v rows s :
  assemble v rows s = for_each (loop_body v) rows (State [] [] (page s)).
Proof. by destruct v. Qed.

Lemma assemble_invariant v (P : state → Prop) rows s :
  (∀ r s, P s → P (row_step v r s)) →
  P (State [] [] (page s)) →
  P (assemble v rows s).2.
Proof. intros Hstep Hinit. rewrite assemble_run. by apply for_each_invariant. Qed.

Lemma run_rows_nodes v rows s :
  nodes (run_rows v rows s) = add_nodes (nodes s) (flat_map (declared_nodes v) rows).
Proof.
  revert s. induction rows as [|r rows IH]; intros s; [done|].
  cbn [flat_map]. rewrite add_nodes_app. apply IH.
Qed.

Lemma run_rows_edges v rows s :
  edges (run_rows v rows s) = edges s ++ flat_map (appended_edges v) rows.
Proof.
  revert s. induction rows as [|r rows IH]; intros s.
  - cbn. by rewrite app_nil_r.
  - cbn [flat_map]. rewrite app_assoc. apply IH.
Qed.

Lemma run_rows_page v rows s : page (run_rows v rows s) = page s.
Proof.
  revert s. induction rows as [|r rows IH]; intros s; [done|].
  unfold run_rows in *. cbn [foldl]. by rewrite IH.
Qed.

Lemma assemble_ok v rows s :
  rows_ok v rows = true →
  assemble v rows s = (inr tt, run_rows v rows (State [] [] (page s))).
Proof. intros Hok. rewrite assemble_run. by apply for_each_ok. Qed.

(** The loop reads and writes [nodes] and [edges] only: the page it starts
    from does not matter. *)
Lemma for_each_page v rows n e p q :
  let r1 := for_each (loop_body v) rows (State n e p) in
  let r2 := for_each (loop_body v) rows (State n e q) in
  r1.1 = r2.1 ∧ nodes r1.2 = nodes r2.2 ∧ edges r1.2 = edges r2.2.
Proof.
  revert n e. induction rows as [|r rows IH]; intros n e; [done|]. cbn zeta.
  rewrite !for_each_cons, !bind_run, !body_run.
  destruct (has_columns v r); [apply IH | done].
Qed.

(** ** Edges against the column specification *)

Lemma both_non_null_true e : both_non_null e = true ↔ e.1 ≠ VNone ∧ e.2 ≠ VNone.
Proof.
  unfold both_non_null. rewrite andb_true_iff, !negb_true_iff, !is_None_false. done.
Qed.

Lemma appended_declared v r e : e ∈ appended_edges v r → e ∈ declared_edges v r.
Proof.
  destruct v; cbn [appended_edges]; try done.
  rewrite !list_elem_of_In. intros Hin. by apply List.filter_In in Hin as [? _].
Qed.

(** Both ends of a declared pair are ids of declared triplets. *)
Lemma declared_endpoints v r e :
  e ∈ declared_edges v r →
  e.1 ∈ (declared_nodes v r).*1.*1 ∧ e.2 ∈ (declared_nodes v r).*1.*1.
Proof.
  destruct v; cbn; rewrite ?elem_of_cons, elem_of_nil;
    intros Hin; repeat destruct Hin as [->|Hin]; try done;
    cbn; rewrite ?elem_of_cons; tauto.
Qed.

Lemma full_ecosystem_appended r :
  Forall (λ e, both_non_null e = true) (appended_edges FullEcosystem r).
Proof.
  apply Forall_forall. intros e Hin. apply list_elem_of_In in Hin.
  by apply List.filter_In in Hin as [_ ?].
Qed.

(** ** Null identifiers *)

Lemma row_step_nodes_inv v (P : node_dict → Prop) :
  (∀ d i l g, P d → P (add_node d i l g)) →
  ∀ r s, P (nodes s) → P (nodes (row_step v r s)).
Proof.
  intros Hadd r s. cbn [row_step nodes]. generalize (declared_nodes v r) (nodes s).
  intros cs. induction cs as [|c cs IH]; intros d Hd; [done|].
  rewrite add_nodes_cons. by apply IH, Hadd.
Qed.

Lemma assemble_nodes_inv v (P : node_dict → Prop) rows s :
  (∀ d i l g, P d → P (add_node d i l g)) →
  P [] →
  P (nodes (assemble v rows s).2).
Proof.
  intros Hadd Hnil.
  apply (assemble_invariant v (λ s, P (nodes s))); [|done].
  by apply row_step_nodes_inv.
Qed.

(** C4: for every view and row sequence, whether the loop finishes or
    raises, the assembled node dict has no null key and no node whose id is
    null, and [add_node] with a null [node_id] returns the dict unchanged. *)
Theorem no_null_node_id (v : graph_view) (rows : list row) (s : state) :
  (VNone ∉ dict_keys (nodes (assemble v rows s).2))
  ∧ Forall (λ n, Node.id n ≠ VNone) (dict_values (nodes (assemble v rows s).2))
  ∧ (∀ (d : node_dict) (label : value) (group : string),
       add_node d VNone label group = d).
Proof.
  assert ((VNone ∉ dict_keys (nodes (assemble v rows s).2))
          ∧ keyed (nodes (assemble v rows s).2)) as [Hnull Hkeyed].
  { apply (assemble_nodes_inv v (λ d, (VNone ∉ dict_keys d) ∧ keyed d)).
    - intros d i l g [Hd Hk]. split; [|by apply add_node_keyed].
      rewrite add_node_keys. intros [?|[-> ?]]; done.
    - split; [apply not_elem_of_nil | apply Forall_nil_2]. }
  split_and!; [done| |done].
  apply Forall_fmap, Forall_forall. intros [k n] Hin. cbn.
  pose proof (proj1 (Forall_forall _ _) Hkeyed _ Hin) as Hid. cbn in Hid.
  rewrite Hid. intros ->. apply Hnull. apply list_elem_of_fmap. by exists (VNone, n).
Qed.

(** ** First write wins *)

(** C3: the keys of the assembled node dict are pairwise distinct; for rows
    that carry the view's columns the loop finishes and the node stored for
    an id is the one built from the first triplet, in row order and then in
    source order within a row, that declares this id, with that triplet's
    label and group; and [add_node] on an id already present returns the
    dict unchanged. *)
Theorem first_write_wins (v : graph_view) (rows : list row) (s : state) :
  rows_ok v rows = true →
  (assemble v rows s).1 = inr tt
  ∧ NoDup (dict_keys (nodes (assemble v rows s).2))
  ∧ (∀ k, dict_get (nodes (assemble v rows s).2) k
          = first_write k (flat_map (declared_nodes v) rows))
  ∧ (∀ (d : node_dict) (node_id label : value) (group : string),
       node_id ∈ dict_keys d → add_node d node_id label group = d).
Proof.
  intros Hok. rewrite (assemble_ok v rows s Hok). cbn [fst snd].
  rewrite run_rows_nodes. cbn [nodes]. split_and!.
  - done.
  - apply add_nodes_NoDup, NoDup_nil_2.
  - intros k. by rewrite add_nodes_get.
  - apply add_node_present.
Qed.

Lemma first_write_wins_witness :
  rows_ok CancerNetwork [row_42_first; row_42_second] = true
  ∧ dict_get (nodes (assemble CancerNetwork [row_42_first; row_42_second] start).2)
      (VInt 42)
    = Some (Node.mk (VInt 42) (VStr "Ada") "pi").
Proof.
  split; [reflexivity|].
  destruct (first_write_wins CancerNetwork [row_42_first; row_42_second] start eq_refl)
    as (_ & _ & Hget & _).
  rewrite (Hget (VInt 42)). reflexivity.
Defined.

(** ** Edge endpoints *)

Lemma row_step_endpoints v r s :
  Forall (λ e, (e.1 = VNone ∨ e.1 ∈ dict_keys (nodes s))
               ∧ (e.2 = VNone ∨ e.2 ∈ dict_keys (nodes s))) (edges s) →
  Forall (λ e, (e.1 = VNone ∨ e.1 ∈ dict_keys (nodes (row_step v r s)))
               ∧ (e.2 = VNone ∨ e.2 ∈ dict_keys (nodes (row_step v r s))))
         (edges (row_step v r s)).
Proof.
  intros Hs. cbn [row_step nodes edges]. apply Forall_app. split.
  - eapply Forall_impl; [exact Hs|]. intros e [H1 H2].
    rewrite !add_nodes_keys. tauto.
  - apply Forall_forall. intros e Hin.
    apply appended_declared, declared_endpoints in Hin as [H1 H2].
    rewrite !add_nodes_keys.
    destruct (decide (e.1 = VNone)), (decide (e.2 = VNone)); tauto.
Qed.

Lemma full_ecosystem_non_null rows s :
  Forall (λ e, both_non_null e = true) (edges (assemble FullEcosystem rows s).2).
Proof.
  apply (assemble_invariant FullEcosystem
           (λ s, Forall (λ e, both_non_null e = true) (edges s))).
  - intros r s' Hs'. cbn [row_step edges]. apply Forall_app. split; [done|].
    apply full_ecosystem_appended.
  - apply Forall_nil_2.
Qed.

Lemma declared_null_free v r e :
  Forall (λ c, c.1.1 ≠ VNone) (declared_nodes v r) →
  e ∈ appended_edges v r → both_non_null e = true.
Proof.
  intros Hids Hin. apply appended_declared, declared_endpoints in Hin as [H1 H2].
  apply both_non_null_true.
  rewrite Forall_forall in Hids.
  apply list_elem_of_fmap in H1 as (c1 & -> & (t1 & -> & Ht1)%list_elem_of_fmap).
  apply list_elem_of_fmap in H2 as (c2 & -> & (t2 & -> & Ht2)%list_elem_of_fmap).
  split; by apply Hids.
Qed.

(** X16: when the view is the full-ecosystem view, whose loop tests both
    ends before it appends, or when no id that the rows declare is null,
    no edge of the assembled list has a null endpoint, whether the loop
    finishes or raises. *)
Theorem edges_guarded_in_full_ecosystem (v : graph_view) (rows : list row) (s : state) :
  v = FullEcosystem
  ∨ Forall (λ r, Forall (λ c, c.1.1 ≠ VNone) (declared_nodes v r)) rows →
  Forall (λ e, e.1 ≠ VNone ∧ e.2 ≠ VNone) (edges (assemble v rows s).2).
Proof.
  intros Hcase.
  eapply Forall_impl; [|intros e He; apply both_non_null_true, He].
  destruct Hcase as [->|Hrows]; [apply full_ecosystem_non_null|].
  rewrite assemble_run.
  apply (for_each_invariant_on v
           (λ s, Forall (λ e, both_non_null e = true) (edges s)) _ rows Hrows).
  - intros r s' Hr Hs'. cbn [row_step edges]. apply Forall_app. split; [done|].
    apply Forall_forall. intros e. by apply declared_null_free.
  - apply Forall_nil_2.
Qed.

Lemma edges_guarded_in_full_ecosystem_witness :
  (FullEcosystem = FullEcosystem
   ∨ Forall (λ r, Forall (λ c, c.1.1 ≠ VNone) (declared_nodes FullEcosystem r))
       [row_no_theme; row_theme])
  ∧ Forall (λ e, e.1 ≠ VNone ∧ e.2 ≠ VNone)
      (edges (assemble FullEcosystem [row_no_theme; row_theme] start).2).
Proof.
  split; [left; reflexivity|].
  apply (edges_guarded_in_full_ecosystem FullEcosystem). left; reflexivity.
Defined.


(** X17: in the full-ecosystem view, whose edges are guarded, both
    endpoints of every assembled edge are keys of the assembled node dict;
    in every view an endpoint that is no key is null; both hold whether the
    loop finishes or raises. *)
Theorem edge_endpoints_in_node_set :
  (∀ (v : graph_view) (rows : list row) (s : state),
     Forall (λ e, (e.1 = VNone ∨ e.1 ∈ dict_keys (nodes (assemble v rows s).2))
                  ∧ (e.2 = VNone ∨ e.2 ∈ dict_keys (nodes (assemble v rows s).2)))
            (edges (assemble v rows s).2))
  ∧ (∀ (rows : list row) (s : state),
       Forall (λ e, e.1 ∈ dict_keys (nodes (assemble FullEcosystem rows s).2)
                    ∧ e.2 ∈ dict_keys (nodes (assemble FullEcosystem rows s).2))
              (edges (assemble FullEcosystem rows s).2)).
Proof.
  assert (∀ v rows s,
     Forall (λ e, (e.1 = VNone ∨ e.1 ∈ dict_keys (nodes (assemble v rows s).2))
                  ∧ (e.2 = VNone ∨ e.2 ∈ dict_keys (nodes (assemble v rows s).2)))
            (edges (assemble v rows s).2)) as Hall.
  { intros v rows s.
    apply (assemble_invariant v
             (λ s, Forall (λ e, (e.1 = VNone ∨ e.1 ∈ dict_keys (nodes s))
                                ∧ (e.2 = VNone ∨ e.2 ∈ dict_keys (nodes s)))
                          (edges s))).
    - intros r s'. apply row_step_endpoints.
    - apply Forall_nil_2. }
  split; [exact Hall|]. intros rows s.
  pose proof (Hall FullEcosystem rows s) as H1.
  pose proof (full_ecosystem_non_null rows s) as H2.
  rewrite Forall_forall in H1, H2. apply Forall_forall. intros e Hin.
  destruct (H1 e Hin) as [Ha Hb].
  apply H2, both_non_null_true in Hin as [? ?]. tauto.
Qed.


(** ** Rendering *)

Lemma emit_run e s : emit e s = (inr tt, set_page (page s ++ [e]) s).
Proof. reflexivity. Qed.

Lemma set_page_set_page p q s : set_page p (set_page q s) = set_page p s.
Proof. reflexivity. Qed.

Lemma for_each_emit {A} (body : A → M unit) (call : A → effect) xs s :
  (∀ x s, body x s = emit (call x) s) →
  for_each body xs s = (inr tt, set_page (page s ++ (call <$> xs)) s).
Proof.
  intros Hbody. revert s. induction xs as [|x xs IH]; intros s.
  - cbn. rewrite app_nil_r. by destruct s.
  - rewrite for_each_cons, bind_run, Hbody, emit_run, IH.
    cbn [page set_page fmap list_fmap]. by rewrite <- app_assoc.
Qed.

Ltac run_emits :=
  repeat (rewrite bind_run, emit_run; cbn beta iota);
  rewrite ?emit_run; rewrite ?set_page_set_page; cbn [page set_page];
  rewrite <- ?app_assoc.

Lemma raise_run {A} (e : exn) s : (raise e : M A) s = (inl e, s).
Proof. reflexivity. Qed.

Lemma set_page_same s : set_page (page s ++ []) s = s.
Proof. destruct s. cbn. by rewrite app_nil_r. Qed.

(** A loop whose body checks its element before it makes its call. *)
Lemma for_each_checked {A} (body : A → M unit) (ok : A → bool) (call : A → effect)
    (e : exn) xs s :
  (∀ x s, body x s = if ok x then emit (call x) s else raise e s) →
  for_each body xs s
  = (if forallb ok xs then inr tt else inl e,
     set_page (page s ++ (call <$> passed ok xs)) s).
Proof.
  intros Hbody. revert s. induction xs as [|x xs IH]; intros s.
  - cbn. by rewrite set_page_same.
  - rewrite for_each_cons, bind_run, Hbody. cbn [forallb passed].
    destruct (ok x); cbn [andb].
    + rewrite emit_run, IH. cbn [page set_page fmap list_fmap].
      by rewrite <- app_assoc.
    + rewrite raise_run. cbn [fmap list_fmap]. by rewrite set_page_same.
Qed.

Lemma render_node_run n s :
  render_node n s = if node_ok n then emit (node_call n) s else raise AssertionError s.
Proof. unfold render_node, node_ok. by destruct (is_None (Node.id n)). Qed.

Lemma render_edge_run ids e s :
  render_edge ids e s
  = if edge_ok ids e then emit (edge_call e) s else raise AssertionError s.
Proof.
  destruct e as [a b]. unfold render_edge, edge_ok. cbn [fst snd].
  by destruct (bool_decide (a ∈ ids) && bool_decide (b ∈ ids)).
Qed.

(** How [build_and_render_network] ends and what it adds to the page. *)
Lemma build_and_render_network_run d es title s :
  build_and_render_network d es title s
  = (render_outcome d es, set_page (page s ++ rendering d es title) s).
Proof.
  destruct d as [|kn d]; [reflexivity|].
  unfold build_and_render_network, render_outcome, rendering.
  do 2 (rewrite bind_run, emit_run; cbn beta iota).
  rewrite bind_run,
    (for_each_checked render_node node_ok node_call AssertionError
       _ _ render_node_run).
  destruct (forallb node_ok (dict_values (kn :: d))); cbn [andb];
    rewrite set_page_set_page; cbn [page set_page]; rewrite <- !app_assoc;
    [|by rewrite app_nil_r].
  rewrite bind_run,
    (for_each_checked (render_edge _) (edge_ok _) edge_call AssertionError
       _ _ (render_edge_run _)).
  destruct (forallb (edge_ok _) es);
    rewrite set_page_set_page; cbn [page set_page]; rewrite <- !app_assoc;
    [|by rewrite app_nil_r].
  run_emits. reflexivity.
Qed.

Lemma get_state_run s : get_state s = (inr s, s).
Proof. reflexivity. Qed.

Lemma app_graph_view v rows :
  app (view_name v) rows =
    match v with
    | CancerNetwork => view2 rows
    | FullEcosystem => view3 rows
    | MultiOrg => view4 rows
    | MSUMankato => view5 rows
    end.
Proof. by destruct v. Qed.

(** A graph view on rows that are there: the notice, the assembly, then
    the rendering of what was assembled. *)
Lemma graph_view_run v r rows s :
  let rs := r :: rows in
  let s1 := set_page (page s ++ [st_markdown (view_doc v);
                                 st_success (loaded_notice v (length rs))]) s in
  app (view_name v) rs s =
    match assemble v rs s1 with
    | (inr _, s2) =>
        (render_outcome (nodes s2) (edges s2),
         set_page (page s2 ++ rendering (nodes s2) (edges s2) (network_title v)) s2)
    | (inl e, s2) => (inl e, s2)
    end.
Proof.
  cbn zeta. rewrite app_graph_view.
  assert (∀ (f : list row → M unit) doc msg title,
    (emit (st_markdown doc);; emit (st_success msg);; f (r :: rows);;
     s' ← get_state; build_and_render_network (nodes s') (edges s') title) s
    = match f (r :: rows) (set_page (page s ++ [st_markdown doc; st_success msg]) s) with
      | (inr _, s2) =>
          (render_outcome (nodes s2) (edges s2),
           set_page (page s2 ++ rendering (nodes s2) (edges s2) title) s2)
      | (inl e, s2) => (inl e, s2)
      end) as Hrun.
  { intros f doc msg title.
    rewrite bind_run, emit_run. cbn beta iota.
    rewrite bind_run, emit_run. cbn beta iota.
    rewrite set_page_set_page. cbn [page set_page]. rewrite <- app_assoc. cbn [app].
    rewrite bind_run. destruct (f (r :: rows) _) as [[e|[]] s2]; [done|].
    by rewrite bind_run, get_state_run, build_and_render_network_run. }
  destruct v; apply Hrun.
Qed.

(** ** Runs do not share state *)

Lemma assemble_fresh v rows s t :
  (assemble v rows s).1 = (assemble v rows t).1
  ∧ nodes (assemble v rows s).2 = nodes (assemble v rows t).2
  ∧ edges (assemble v rows s).2 = edges (assemble v rows t).2.
Proof. rewrite !assemble_run. apply for_each_page. Qed.

(** C5: the assembly starts from a fresh node dict and edge list, so its
    outcome, its node dict and its edge list are the same from any two
    starting states; in particular a second run, started from the state the
    first run left, yields the same node dict (hence the same node set) and
    the same edge sequence, and the graph a whole view renders does not
    depend on the state before the view ran. *)
Theorem assemble_idempotent (v : graph_view) (rows : list row) (s t : state) :
  (assemble v rows s).1 = (assemble v rows t).1
  ∧ nodes (assemble v rows s).2 = nodes (assemble v rows t).2
  ∧ edges (assemble v rows s).2 = edges (assemble v rows t).2
  ∧ nodes (assemble v rows (assemble v rows s).2).2 = nodes (assemble v rows s).2
  ∧ (∀ kn, kn ∈ nodes (assemble v rows (assemble v rows s).2).2
           ↔ kn ∈ nodes (assemble v rows s).2)
  ∧ edges (assemble v rows (assemble v rows s).2).2 = edges (assemble v rows s).2
  ∧ (∀ r, nodes (app (view_name v) (r :: rows) s).2
            = nodes (app (view_name v) (r :: rows) t).2
          ∧ edges (app (view_name v) (r :: rows) s).2
            = edges (app (view_name v) (r :: rows) t).2).
Proof.
  destruct (assemble_fresh v rows s t) as (Ho & Hn & He).
  destruct (assemble_fresh v rows (assemble v rows s).2 s) as (_ & Hn2 & He2).
  split_and!; try done.
  - intros kn. by rewrite Hn2.
  - intros r. rewrite !graph_view_run. cbn zeta.
    pose proof (assemble_fresh v (r :: rows)
      (set_page (page s ++ [st_markdown (view_doc v);
                            st_success (loaded_notice v (length (r :: rows)))]) s)
      (set_page (page t ++ [st_markdown (view_doc v);
                            st_success (loaded_notice v (length (r :: rows)))]) t))
      as (_ & Hn' & He').
    do 2 match goal with |- context [assemble v (r :: rows) ?st] =>
      destruct (assemble v (r :: rows) st) as [[?|[]] ?] end; done.
Qed.

(** ** Empty results *)

(** C9: on an empty row list every view returns after its description and
    its "no results" warning, leaving [nodes] and [edges] untouched and
    making no network call; and [build_and_render_network] on an empty node
    dict returns after the single "no nodes" warning, before any network is
    constructed. *)
Theorem empty_results_notice :
  (∀ (s : state),
     app "Top 10 PIs by Grants Led" [] s
     = (inr tt, set_page (page s ++ [st_markdown view1_doc;
                                     st_warning "No data returned for this query."]) s))
  ∧ (∀ (v : graph_view) (s : state),
       app (view_name v) [] s
       = (inr tt, set_page (page s ++ [st_markdown (view_doc v);
                                       st_warning (no_results_notice v)]) s))
  ∧ (∀ (es : list edge) (title : string) (s : state),
       build_and_render_network [] es title s
       = (inr tt, set_page (page s ++ [st_warning "No nodes to display for this query."]) s))
  ∧ (∀ (view : string) (s : state),
       (app view [] s).1 = inr tt
       ∧ nodes (app view [] s).2 = nodes s
       ∧ edges (app view [] s).2 = edges s
       ∧ ∃ new, page (app view [] s).2 = page s ++ new
                ∧ Forall (λ e, is_network_call e = false) new).
Proof.
  assert (∀ doc msg s,
    (emit (st_markdown doc);; emit (st_warning msg)) s
    = (inr tt, set_page (page s ++ [st_markdown doc; st_warning msg]) s)) as Hrun.
  { intros doc msg s. rewrite bind_run, emit_run. cbn beta iota.
    rewrite emit_run, set_page_set_page. cbn [page set_page].
    by rewrite <- app_assoc. }
  split_and!.
  - intros s. apply Hrun.
  - intros v s. rewrite app_graph_view. destruct v; apply Hrun.
  - reflexivity.
  - intros view s. unfold app.
    repeat match goal with
           | |- context [String.eqb view ?x] => destruct (String.eqb view x)
           end;
      try (unfold view1, view2, view3, view4, view5; rewrite Hrun;
           split_and!; try reflexivity;
           eexists; split; [reflexivity | by repeat constructor]).
    split_and!; try reflexivity. exists []. split; [by rewrite app_nil_r | constructor].
Qed.

(** ** Unknown groups *)

Lemma group_color_unknown g : g ∉ known_groups → group_color g = "#999999".
Proof.
  intros Hg. unfold group_color, group_colors.
  by rewrite (not_elem_of_list_to_map_1 _ g).
Qed.

Lemma passed_all {A} (ok : A → bool) l : forallb ok l = true → passed ok l = l.
Proof.
  induction l as [|x l IH]; [done|]. cbn [forallb passed].
  intros [Hx Hl]%andb_true_iff. rewrite Hx. by rewrite IH.
Qed.

Lemma forallb_node_ok l :
  Forall (λ n, Node.id n ≠ VNone) l → forallb node_ok l = true.
Proof.
  induction 1 as [|n l Hn Hl IH]; [done|]. cbn [forallb]. rewrite IH.
  unfold node_ok. apply is_None_false in Hn. by rewrite Hn.
Qed.

Lemma forallb_edge_ok ids es :
  Forall (λ e, e.1 ∈ ids ∧ e.2 ∈ ids) es → forallb (edge_ok ids) es = true.
Proof.
  induction 1 as [|e es [H1 H2] Hes IH]; [done|]. cbn [forallb]. rewrite IH.
  unfold edge_ok. by rewrite !bool_decide_eq_true_2.
Qed.

(** A graph whose ids pyvis accepts is rendered to the end. *)
Lemma render_sound d es title :
  Forall (λ n, Node.id n ≠ VNone) (dict_values d) →
  Forall (λ e, e.1 ∈ Node.id <$> dict_values d ∧ e.2 ∈ Node.id <$> dict_values d) es →
  render_outcome d es = inr tt
  ∧ rendering d es title
    = match d with
      | [] => [st_warning "No nodes to display for this query."]
      | _ :: _ =>
          [Network_new "700px" "100%" "#FFFFFF" "#000000" false; net_barnes_hut]
          ++ (node_call <$> dict_values d) ++ (edge_call <$> es)
          ++ [net_set_options; net_save_graph "graph.html"; open_read "graph.html";
              st_subheader title;
              st_caption "You can drag nodes, zoom, and hover for details.";
              st_html 700 true]
      end.
Proof.
  intros Hn%forallb_node_ok He%forallb_edge_ok.
  destruct d as [|kn d]; [done|]. unfold render_outcome, rendering.
  by rewrite Hn, He, !passed_all.
Qed.

(** Whether a rendering ends in an assertion is a matter of the ids alone. *)
Lemma render_outcome_ids d d' es :
  Node.id <$> dict_values d = Node.id <$> dict_values d' →
  render_outcome d es = render_outcome d' es.
Proof.
  assert (∀ l, forallb node_ok l = forallb (λ i, negb (is_None i)) (Node.id <$> l))
    as Hok.
  { intros l. induction l as [|n l IH]; [done|]. cbn. by rewrite IH. }
  intros Hids. destruct d as [|kn d], d' as [|kn' d']; try done.
  unfold render_outcome. by rewrite !Hok, Hids.
Qed.

(** C8: for a group tag outside the six known ones, [add_node] still stores
    the node under a fresh non-null id and the color lookup yields
    "#999999"; on a node dict without null ids and an edge list whose ends
    are ids of its nodes, whatever the groups, [build_and_render_network]
    returns normally, having handed each node of such a group to pyvis with
    that color; and whether it returns or stops at a pyvis assertion
    depends on the ids alone, never on a group or a label. *)
Theorem unknown_group_default_color (g : string) :
  g ∉ known_groups →
  group_color g = "#999999"
  ∧ (∀ (d : node_dict) (node_id label : value),
       node_id ≠ VNone → node_id ∉ dict_keys d →
       add_node d node_id label g
       = d ++ [(node_id, Node.mk node_id (py_or label (VStr g)) g)])
  ∧ (∀ (d : node_dict) (es : list edge) (title : string) (s : state),
       Forall (λ n, Node.id n ≠ VNone) (dict_values d) →
       Forall (λ e, e.1 ∈ Node.id <$> dict_values d
                    ∧ e.2 ∈ Node.id <$> dict_values d) es →
       (build_and_render_network d es title s).1 = inr tt
       ∧ ∀ n, n ∈ dict_values d → Node.group n = g →
              net_add_node (Node.id n) (Node.label n) "#999999"
                (Tooltip g (Node.label n))
              ∈ page (build_and_render_network d es title s).2)
  ∧ (∀ (d d' : node_dict) (es : list edge) (title : string) (s : state),
       Node.id <$> dict_values d = Node.id <$> dict_values d' →
       (build_and_render_network d es title s).1
       = (build_and_render_network d' es title s).1).
Proof.
  intros Hg. pose proof (group_color_unknown g Hg) as Hcolor. split_and!.
  - done.
  - intros d i l Hi Hfresh.
    destruct (add_node_cases d i l g) as [[_ [?|?]]|(-> & _ & _)]; done.
  - intros d es title s Hids Hes. rewrite build_and_render_network_run.
    destruct (render_sound d es title Hids Hes) as [-> ->]. split; [done|].
    intros n Hn Hgroup. cbn [snd page set_page].
    destruct d as [|kn d]; [by apply elem_of_nil in Hn|].
    rewrite !elem_of_app. right. right. left.
    apply list_elem_of_fmap. exists n. split; [|done].
    unfold node_call. by rewrite Hgroup, Hcolor.
  - intros d d' es title s Hids. rewrite !build_and_render_network_run.
    cbn [fst]. by apply render_outcome_ids.
Qed.

Lemma unknown_group_default_color_witness :
  ("department" ∉ known_groups)
  ∧ (build_and_render_network
       (add_node [] (VInt 3) VNone "department") [(VInt 3, VInt 3)] "t" start).1
    = inr tt
  ∧ net_add_node (VInt 3) (VStr "department") "#999999"
      (Tooltip "department" (VStr "department"))
    ∈ page (build_and_render_network
              (add_node [] (VInt 3) VNone "department") [(VInt 3, VInt 3)] "t" start).2.
Proof.
  assert ("department" ∉ known_groups) as Hg.
  { apply (bool_decide_unpack _). vm_compute. exact I. }
  split; [exact Hg|].
  destruct (unknown_group_default_color "department" Hg) as (_ & _ & Hr & _).
  destruct (Hr (add_node [] (VInt 3) VNone "department") [(VInt 3, VInt 3)] "t" start)
    as [Hret Hcall].
  - repeat constructor. discriminate.
  - repeat constructor; apply list_elem_of_here.
  - split; [exact Hret|].
    apply (Hcall (Node.mk (VInt 3) (VStr "department") "department"));
      [apply list_elem_of_here | reflexivity].
Defined.

(** ** Edge counts *)

Lemma assemble_edges v rows s :
  rows_ok v rows = true →
  edges (assemble v rows s).2 = flat_map (appended_edges v) rows.
Proof.
  intros Hok. rewrite (assemble_ok v rows s Hok). cbn [snd].
  by rewrite run_rows_edges.
Qed.

Lemma flat_map_length_const {A B} (f : A → list B) n (l : list A) :
  (∀ x, length (f x) = n) → length (flat_map f l) = (n * length l)%nat.
Proof.
  intros Hf. induction l as [|x l IH]; cbn [flat_map length]; [lia|].
  rewrite length_app, Hf, IH. lia.
Qed.

Lemma elem_of_flat_map_2 {A B} (f : A → list B) (l : list A) x y :
  x ∈ l → y ∈ f x → y ∈ flat_map f l.
Proof.
  rewrite !list_elem_of_In. intros Hx Hy. apply in_flat_map. eauto.
Qed.

(** C10: in the cancer-network, multi-organization and MSU views, on rows
    that carry the view's columns, the loop finishes and its edge list is
    the rows' declared pairs one after the other, two per row (three in the
    MSU view), whatever the ids are: every declared pair of every row is in
    the list, so a null [pi_id] occurs as the source of an edge. *)
Theorem edges_appended_unconditionally (v : graph_view) (rows : list row) (s : state) :
  v ≠ FullEcosystem →
  rows_ok v rows = true →
  (assemble v rows s).1 = inr tt
  ∧ edges (assemble v rows s).2 = flat_map (declared_edges v) rows
  ∧ length (edges (assemble v rows s).2)
    = ((match v with MSUMankato => 3 | _ => 2 end) * length rows)%nat
  ∧ (∀ r e, r ∈ rows → e ∈ declared_edges v r → e ∈ edges (assemble v rows s).2)
  ∧ (∀ r, r ∈ rows → col r "pi_id" = VNone →
          (VNone, col r "grant_id") ∈ edges (assemble v rows s).2).
Proof.
  intros Hv Hok.
  assert (edges (assemble v rows s).2 = flat_map (declared_edges v) rows) as Hedges.
  { rewrite assemble_edges by done. by destruct v. }
  assert (∀ r e, r ∈ rows → e ∈ declared_edges v r → e ∈ edges (assemble v rows s).2)
    as Hall.
  { intros r e Hr He. rewrite Hedges. by eapply elem_of_flat_map_2. }
  split_and!.
  - by rewrite (assemble_ok v rows s Hok).
  - done.
  - rewrite Hedges. apply flat_map_length_const. intros r. by destruct v.
  - done.
  - intros r Hr Hnull. apply (Hall r _ Hr). rewrite <- Hnull.
    destruct v; try done; apply list_elem_of_here.
Qed.

Lemma edges_appended_unconditionally_witness :
  CancerNetwork ≠ FullEcosystem
  ∧ rows_ok CancerNetwork [row_a; row_null_pi] = true
  ∧ length (edges (assemble CancerNetwork [row_a; row_null_pi] start).2) = 4%nat
  ∧ (VNone, VInt 10) ∈ edges (assemble CancerNetwork [row_a; row_null_pi] start).2.
Proof.
  split; [discriminate|]. split; [reflexivity|].
  destruct (edges_appended_unconditionally CancerNetwork [row_a; row_null_pi] start
              ltac:(discriminate) eq_refl) as (_ & _ & Hlen & _ & Hnull).
  split; [exact Hlen|].
  apply (Hnull row_null_pi); [|reflexivity].
  apply list_elem_of_further, list_elem_of_here.
Defined.

(** ** Multiplicity *)

Lemma occurrences_app e l l' :
  occurrences e (l ++ l') = (occurrences e l + occurrences e l')%nat.
Proof. unfold occurrences. by rewrite List.filter_app, length_app. Qed.

Lemma occurrences_flat_map {A} e (f : A → list edge) (l : list A) :
  occurrences e (flat_map f l) = sum_list ((λ x, occurrences e (f x)) <$> l).
Proof.
  induction l as [|x l IH]; [done|].
  cbn [flat_map fmap list_fmap sum_list sum_list_with]. by rewrite occurrences_app, IH.
Qed.

Lemma occurrences_filter e (P : edge → bool) l :
  P e = true → occurrences e (List.filter P l) = occurrences e l.
Proof.
  intros HP. unfold occurrences. induction l as [|x l IH]; [done|]. cbn [List.filter].
  destruct (P x) eqn:Hx; cbn [List.filter].
  - destruct (bool_decide (x = e)); cbn [length]; by rewrite IH.
  - rewrite bool_decide_eq_false_2; [done|]. congruence.
Qed.

Lemma filter_flat_map {A B} (P : B → bool) (f : A → list B) (l : list A) :
  List.filter P (flat_map f l) = flat_map (λ x, List.filter P (f x)) l.
Proof.
  induction l as [|x l IH]; [done|]. cbn [flat_map].
  by rewrite List.filter_app, IH.
Qed.

Lemma filter_filter {A} (P : A → bool) (l : list A) :
  List.filter P (List.filter P l) = List.filter P l.
Proof.
  induction l as [|x l IH]; [done|]. cbn [List.filter].
  destruct (P x) eqn:Hx; cbn [List.filter]; rewrite ?Hx, IH; done.
Qed.

(** C7: on rows that carry the view's columns the loop finishes, and the
    edges with two non-null endpoints are, in order, the declared pairs
    with two non-null endpoints of each row: one edge per row and pair,
    none merged, so a pair occurs in the list as often as the rows declare
    it.  On the two rows that share grant 10 at organizations 100 and 200
    this gives one grant node, two organization nodes and the two
    grant-to-organization edges (and the PI-to-grant edge twice). *)
Theorem edges_keep_multiplicity (v : graph_view) (rows : list row) (s : state) :
  rows_ok v rows = true →
  (assemble v rows s).1 = inr tt
  ∧ List.filter both_non_null (edges (assemble v rows s).2)
    = flat_map (λ r, List.filter both_non_null (declared_edges v r)) rows
  ∧ (∀ e, both_non_null e = true →
          occurrences e (edges (assemble v rows s).2)
          = sum_list ((λ r, occurrences e (declared_edges v r)) <$> rows))
  ∧ nodes (assemble CancerNetwork [row_a; row_a'] s).2
    = [(VInt 1, Node.mk (VInt 1) (VStr "A") "pi");
       (VInt 10, Node.mk (VInt 10) (VStr "G1") "grant");
       (VInt 100, Node.mk (VInt 100) (VStr "Org1") "org");
       (VInt 200, Node.mk (VInt 200) (VStr "Org2") "org")]
  ∧ edges (assemble CancerNetwork [row_a; row_a'] s).2
    = [(VInt 1, VInt 10); (VInt 10, VInt 100); (VInt 1, VInt 10); (VInt 10, VInt 200)].
Proof.
  intros Hok. split_and!.
  - by rewrite (assemble_ok v rows s Hok).
  - rewrite assemble_edges, filter_flat_map by done.
    apply flat_map_ext. intros r. destruct v; cbn [appended_edges]; try done.
    apply filter_filter.
  - intros e He. rewrite assemble_edges, occurrences_flat_map by done.
    f_equal. apply list_fmap_ext. intros _ r _.
    destruct v; cbn [appended_edges]; try done. by apply occurrences_filter.
  - rewrite assemble_run. reflexivity.
  - rewrite assemble_run. reflexivity.
Qed.

Lemma edges_keep_multiplicity_witness :
  rows_ok CancerNetwork [row_a; row_a'] = true
  ∧ occurrences (VInt 1, VInt 10)
      (edges (assemble CancerNetwork [row_a; row_a'] start).2) = 2%nat.
Proof.
  split; [reflexivity|].
  destruct (edges_keep_multiplicity CancerNetwork [row_a; row_a'] start eq_refl)
    as (_ & _ & Hocc & _).
  rewrite (Hocc (VInt 1, VInt 10) eq_refl). reflexivity.
Defined.

(** ** Themes *)

(** Where an entry of the dict comes from after a run of [add_node] calls. *)
Lemma add_nodes_elem d cs k n :
  (k, n) ∈ add_nodes d cs →
  (k, n) ∈ d ∨ (k ≠ VNone ∧ ∃ c, c ∈ cs ∧ c.1.1 = k ∧ n = node_of c).
Proof.
  revert d. induction cs as [|c cs IH]; intros d; [by left|].
  rewrite add_nodes_cons. intros [Hin|(Hk & c' & Hc' & Heq)]%IH.
  - destruct c as [[i l] g]. cbn [fst snd] in Hin.
    destruct (add_node_cases d i l g) as [[Hsame _]|(Happ & Hi & _)].
    + left. by rewrite Hsame in Hin.
    + rewrite Happ in Hin. apply elem_of_app in Hin as [?|Hin]; [by left|].
      apply list_elem_of_singleton in Hin. injection Hin as -> ->.
      right. split; [done|]. exists (i, l, g). split; [apply list_elem_of_here | done].
  - right. split; [done|]. exists c'. split; [by apply list_elem_of_further | done].
Qed.

Lemma rows_ok_elem v rows r :
  rows_ok v rows = true → r ∈ rows → has_columns v r = true.
Proof.
  unfold rows_ok. rewrite forallb_forall. intros Hall Hr.
  apply Hall. by apply list_elem_of_In.
Qed.

Lemma full_ecosystem_row_edges r :
  appended_edges FullEcosystem r
  = List.filter both_non_null (themeless_edges r)
    ++ (if negb (is_None (col r "theme_id")) && negb (is_None (col r "grant_id"))
        then [(col r "grant_id", col r "theme_id")] else []).
Proof.
  cbn [appended_edges declared_edges].
  change [(col r "funder_id", col r "grant_id"); (col r "pi_id", col r "grant_id");
          (col r "grant_id", col r "org_id"); (col r "org_id", col r "system_id");
          (col r "grant_id", col r "theme_id")]
    with (themeless_edges r ++ [(col r "grant_id", col r "theme_id")]).
  rewrite List.filter_app. f_equal. cbn [List.filter]. unfold both_non_null. cbn [fst snd].
  by rewrite andb_comm.
Qed.

(** C6: in the full-ecosystem view, on rows that carry the view's columns,
    a row whose [theme_id] is null makes the loop body add only the funder,
    grant, PI, organization and system triplets and append only the
    guarded pairs among those; every node of group "theme" in the
    assembled dict has the non-null [theme_id] of some row as its id; and
    the edge list holds a grant-to-theme pair for a row only when that
    row's [theme_id] (and [grant_id]) is non-null. *)
Theorem null_theme_adds_nothing (rows : list row) (s : state) :
  rows_ok FullEcosystem rows = true →
  (∀ r t, r ∈ rows → col r "theme_id" = VNone →
     view3_body r t
     = (inr tt, State (add_nodes (nodes t) (themeless_nodes r))
                      (edges t ++ List.filter both_non_null (themeless_edges r))
                      (page t)))
  ∧ (∀ k n, (k, n) ∈ nodes (assemble FullEcosystem rows s).2 →
            Node.group n = "theme" →
            k ≠ VNone ∧ ∃ r, r ∈ rows ∧ col r "theme_id" = k)
  ∧ edges (assemble FullEcosystem rows s).2
    = flat_map
        (λ r, List.filter both_non_null (themeless_edges r)
              ++ (if negb (is_None (col r "theme_id")) && negb (is_None (col r "grant_id"))
                  then [(col r "grant_id", col r "theme_id")] else []))
        rows.
Proof.
  intros Hok. split_and!.
  - intros r t Hr Hnull.
    pose proof (body_run FullEcosystem r t) as Hrun. cbn [loop_body] in Hrun.
    rewrite (rows_ok_elem _ _ _ Hok Hr) in Hrun. rewrite Hrun. f_equal.
    unfold row_step. rewrite full_ecosystem_row_edges, Hnull. cbn [is_None negb andb].
    rewrite app_nil_r. f_equal.
    change (declared_nodes FullEcosystem r)
      with (themeless_nodes r ++ [(col r "theme_id", theme_label r, "theme")]).
    rewrite add_nodes_app, Hnull. reflexivity.
  - intros k n Hin Hgroup.
    rewrite (assemble_ok _ rows s Hok) in Hin. cbn [snd] in Hin.
    rewrite run_rows_nodes in Hin. cbn [nodes] in Hin.
    apply add_nodes_elem in Hin as [Hin|(Hk & c & Hc & Hid & ->)];
      [by apply elem_of_nil in Hin|].
    split; [done|].
    apply list_elem_of_In, in_flat_map in Hc as (r & Hr & Hc).
    exists r. split; [by apply list_elem_of_In|].
    cbn [declared_nodes] in Hc. cbn [node_of Node.group] in Hgroup.
    repeat (destruct Hc as [<-|Hc]; [try discriminate Hgroup|]); [done|destruct Hc].
  - rewrite assemble_edges by done. apply flat_map_ext. intros r.
    apply full_ecosystem_row_edges.
Qed.

Lemma null_theme_adds_nothing_witness :
  rows_ok FullEcosystem [row_no_theme; row_theme] = true
  ∧ view3_body row_no_theme start
    = (inr tt,
       State [(VInt 7, Node.mk (VInt 7) (VStr "NSF") "funder");
              (VInt 10, Node.mk (VInt 10) (VStr "G1") "grant");
              (VInt 1, Node.mk (VInt 1) (VStr "A") "pi");
              (VInt 100, Node.mk (VInt 100) (VStr "Org1") "org")]
             [(VInt 7, VInt 10); (VInt 1, VInt 10); (VInt 10, VInt 100)]
             []).
Proof.
  split; [reflexivity|].
  destruct (null_theme_adds_nothing [row_no_theme; row_theme] start eq_refl)
    as (Hbody & _ & _).
  rewrite (Hbody row_no_theme start); [reflexivity | apply list_elem_of_here | reflexivity].
Defined.

(** * Further properties of the script *)

(** ** Loops that stop early *)

Lemma for_each_app {A} (body : A → M unit) l1 l2 s :
  for_each body (l1 ++ l2) s =
    match for_each body l1 s with
    | (inr _, s') => for_each body l2 s'
    | (inl e, s') => (inl e, s')
    end.
Proof.
  revert s. induction l1 as [|x l1 IH]; intros s; [done|].
  rewrite <- app_comm_cons, !for_each_cons, !bind_run.
  destruct (body x s) as [[e|[]] s']; [done | apply IH].
Qed.

Lemma for_each_state v rows s :
  (for_each (loop_body v) rows s).2 = run_rows v (consumed v rows) s.
Proof.
  revert s. induction rows as [|r rows IH]; intros s; [done|].
  rewrite for_each_cons, bind_run, body_run. cbn [consumed].
  destruct (has_columns v r); [apply IH | done].
Qed.

Lemma for_each_raise v rows s :
  rows_ok v rows = false →
  ∃ r, r ∈ rows ∧ has_columns v r = false
       ∧ (for_each (loop_body v) rows s).1 = inl (KeyError (missing v r)).
Proof.
  revert s. induction rows as [|r rows IH]; intros s Hbad; [done|].
  rewrite for_each_cons, bind_run, body_run.
  destruct (has_columns v r) eqn:Hr.
  - unfold rows_ok in Hbad. cbn [forallb] in Hbad. rewrite Hr in Hbad.
    destruct (IH (row_step v r s) Hbad) as (r' & Hin & Hr' & Hout).
    exists r'. split_and!; [by apply list_elem_of_further | done | done].
  - exists r. split_and!; [apply list_elem_of_here | done | done].
Qed.

Lemma for_each_outcome v rows s :
  (for_each (loop_body v) rows s).1 = inr tt ↔ rows_ok v rows = true.
Proof.
  split.
  - intros Hret. destruct (rows_ok v rows) eqn:Hok; [done|].
    destruct (for_each_raise v rows s Hok) as (r & _ & _ & Hraise). congruence.
  - intros Hok. by rewrite for_each_ok.
Qed.

Lemma assemble_page v rows s : page (assemble v rows s).2 = page s.
Proof. by rewrite assemble_run, for_each_state, run_rows_page. Qed.

Lemma first_missing_spec (r : row) cols :
  forallb (has_column r) cols = false →
  r !! first_missing r cols = None
  ∧ ∃ before after, cols = before ++ first_missing r cols :: after
                     ∧ Forall (λ k, is_Some (r !! k)) before.
Proof.
  induction cols as [|k cols IH]; [done|]. cbn [forallb first_missing].
  destruct (has_column r k) eqn:Hk; unfold has_column in Hk.
  - intros Hbad. destruct (IH Hbad) as (Hnone & before & after & Heq & Hbefore).
    split; [done|]. exists (k :: before), after.
    split; [rewrite <- app_comm_cons; by f_equal|].
    apply Forall_cons. split; [by destruct (r !! k) | done].
  - intros _. split; [by destruct (r !! k)|].
    exists [], cols. split; [done | constructor].
Qed.

(** X1: when the rows before [r] carry the view's columns and [r] lacks
    one, the loop raises [KeyError] for the first column, in the order the
    body reads them, that [r] lacks; the failing row adds no node and no
    edge, so [nodes] and [edges] are left as the rows before it built
    them, and no later row is read. *)
Theorem missing_column_raises
    (v : graph_view) (pre : list row) (r : row) (post : list row) (s : state) :
  rows_ok v pre = true →
  has_columns v r = false →
  (assemble v (pre ++ r :: post) s).1 = inl (KeyError (missing v r))
  ∧ (assemble v (pre ++ r :: post) s).2 = (assemble v pre s).2
  ∧ r !! missing v r = None
  ∧ ∃ before after, columns v = before ++ missing v r :: after
                     ∧ Forall (λ k, is_Some (r !! k)) before.
Proof.
  intros Hpre Hr.
  assert (assemble v (pre ++ r :: post) s
          = (inl (KeyError (missing v r)), (assemble v pre s).2)) as Hrun.
  { rewrite !assemble_run, for_each_app, (for_each_ok v pre _ Hpre).
    by rewrite for_each_cons, bind_run, body_run, Hr. }
  rewrite Hrun. destruct (first_missing_spec r (columns v) Hr) as [Hnone Hsplit].
  split_and!; done.
Qed.

Lemma missing_column_raises_witness :
  rows_ok CancerNetwork [row_a] = true
  ∧ has_columns CancerNetwork row_without_org = false
  ∧ (assemble CancerNetwork ([row_a] ++ row_without_org :: [row_a']) start).1
    = inl (KeyError "org_id").
Proof.
  split; [reflexivity|]. split; [reflexivity|].
  destruct (missing_column_raises CancerNetwork [row_a] row_without_org [row_a'] start
              eq_refl eq_refl) as (Hraise & _).
  exact Hraise.
Defined.

(** X2: a loop finishes exactly when every row carries the columns its
    body reads; otherwise it raises [KeyError]. *)
Theorem loop_finishes_iff_columns (v : graph_view) (rows : list row) (s : state) :
  ((assemble v rows s).1 = inr tt ↔ rows_ok v rows = true)
  ∧ ((assemble v rows s).1 = inr tt ∨ ∃ k, (assemble v rows s).1 = inl (KeyError k)).
Proof.
  rewrite assemble_run. split; [apply for_each_outcome|].
  destruct (rows_ok v rows) eqn:Hok.
  - left. by rewrite for_each_ok.
  - right. destruct (for_each_raise v rows (State [] [] (page s)) Hok)
      as (r & _ & _ & Hraise). eauto.
Qed.

(** ** The script as a whole *)

Lemma view_name_inj v v' : view_name v = view_name v' → v = v'.
Proof. destruct v, v'; intros Heq; try reflexivity; discriminate Heq. Qed.

Lemma bar_chart_run df x y s :
  bar_chart df x y s
  = if df_has_column df x && df_has_column df y
    then (inr tt, set_page (page s ++ [st_bar_chart df x y]) s)
    else (inl StreamlitAPIException, s).
Proof. unfold bar_chart. by destruct (df_has_column df x && df_has_column df y). Qed.

Lemma view1_run r rows s :
  view1 (r :: rows) s
  = if df_has_column (r :: rows) "pi_name" && df_has_column (r :: rows) "grants_led"
    then (inr tt,
          set_page (page s ++
                    [st_markdown view1_doc;
                     st_success ("Loaded " ++ str_of_nat (length (r :: rows)) ++ " rows.");
                     st_dataframe (r :: rows);
                     st_bar_chart (r :: rows) "pi_name" "grants_led"]) s)
    else (inl StreamlitAPIException,
          set_page (page s ++
                    [st_markdown view1_doc;
                     st_success ("Loaded " ++ str_of_nat (length (r :: rows)) ++ " rows.");
                     st_dataframe (r :: rows)]) s).
Proof.
  unfold view1.
  do 3 (rewrite bind_run, emit_run; cbn beta iota).
  rewrite bar_chart_run.
  destruct (df_has_column (r :: rows) "pi_name" && df_has_column (r :: rows) "grants_led");
    rewrite !set_page_set_page; cbn [page set_page]; by rewrite <- !app_assoc.
Qed.

Lemma graph_view_empty_run v s :
  app (view_name v) [] s
  = (inr tt, set_page (page s ++ [st_markdown (view_doc v);
                                  st_warning (no_results_notice v)]) s).
Proof.
  rewrite app_graph_view.
  destruct v; unfold view2, view3, view4, view5; run_emits; reflexivity.
Qed.

(** X3: a graph view whose rows are not all complete stops at the first
    incomplete row with the [KeyError] of that row's first missing column;
    the page then shows the view's description and the "Loaded n rows"
    notice and nothing else: no network is built for a partial graph. *)
Theorem view_stops_at_missing_column
    (v : graph_view) (r : row) (rows : list row) (s : state) :
  rows_ok v (r :: rows) = false →
  ∃ r', r' ∈ r :: rows
        ∧ has_columns v r' = false
        ∧ (app (view_name v) (r :: rows) s).1 = inl (KeyError (missing v r'))
        ∧ page (app (view_name v) (r :: rows) s).2
          = page s ++ [st_markdown (view_doc v);
                       st_success (loaded_notice v (length (r :: rows)))].
Proof.
  intros Hbad. rewrite graph_view_run. cbn zeta.
  pose proof (assemble_page v (r :: rows)
    (set_page (page s ++ [st_markdown (view_doc v);
                          st_success (loaded_notice v (length (r :: rows)))]) s)) as Hpage.
  rewrite assemble_run in *. cbn [page set_page] in *.
  destruct (for_each_raise v (r :: rows)
    (State [] [] (page s ++ [st_markdown (view_doc v);
                             st_success (loaded_notice v (length (r :: rows)))])) Hbad)
    as (r' & Hin & Hr' & Hraise).
  exists r'. destruct (for_each (loop_body v) (r :: rows) _) as [[e|[]] s2];
    cbn [fst snd] in *; [|done].
  split_and!; [done | done | by rewrite Hraise | done].
Qed.

Lemma view_stops_at_missing_column_witness :
  rows_ok CancerNetwork [row_a; row_without_org] = false
  ∧ ∃ r', r' ∈ [row_a; row_without_org]
          ∧ (app (view_name CancerNetwork) [row_a; row_without_org] start).1
            = inl (KeyError (missing CancerNetwork r')).
Proof.
  split; [reflexivity|].
  destruct (view_stops_at_missing_column CancerNetwork row_a [row_without_org] start
              eq_refl) as (r' & Hin & _ & Hraise & _).
  exists r'. split; [exact Hin | exact Hraise].
Defined.

(** ** The assembled graph as the rows grow *)

Lemma add_node_prefix (d : node_dict) i l g : d `prefix_of` add_node d i l g.
Proof.
  destruct (add_node_cases d i l g) as [[-> _]|(-> & _ & _)]; [done|].
  by apply prefix_app_r.
Qed.

Lemma add_nodes_prefix d cs : d `prefix_of` add_nodes d cs.
Proof.
  revert d. induction cs as [|c cs IH]; intros d; [done|].
  rewrite add_nodes_cons. etrans; [apply add_node_prefix | apply IH].
Qed.

Lemma for_each_grows v rows s :
  nodes s `prefix_of` nodes (for_each (loop_body v) rows s).2
  ∧ edges s `prefix_of` edges (for_each (loop_body v) rows s).2.
Proof.
  apply (for_each_invariant v
           (λ s', nodes s `prefix_of` nodes s' ∧ edges s `prefix_of` edges s'));
    [|done].
  intros r s' [Hn He]. cbn [row_step nodes edges]. split.
  - etrans; [exact Hn | apply add_nodes_prefix].
  - by apply prefix_app_r.
Qed.

(** X7: assembling [rows ++ more] is assembling [rows] and then letting the
    loop run on over [more] from the state reached (or stopping where
    [rows] raised); so the node dict and the edge list of [rows] are
    prefixes of those of the longer sequence: later rows only append, they
    never remove, reorder or change what earlier rows produced. *)
Theorem assemble_extends (v : graph_view) (rows more : list row) (s : state) :
  assemble v (rows ++ more) s
  = match assemble v rows s with
    | (inr _, s') => for_each (loop_body v) more s'
    | (inl e, s') => (inl e, s')
    end
  ∧ nodes (assemble v rows s).2 `prefix_of` nodes (assemble v (rows ++ more) s).2
  ∧ edges (assemble v rows s).2 `prefix_of` edges (assemble v (rows ++ more) s).2.
Proof.
  rewrite !assemble_run, for_each_app.
  destruct (for_each (loop_body v) rows _) as [[e|[]] s']; cbn [snd].
  - done.
  - split; [done|]. apply for_each_grows.
Qed.

(** ** Which nodes there are *)

Lemma flat_map_ids v rows :
  (flat_map (declared_nodes v) rows).*1.*1 = flat_map (declared_ids v) rows.
Proof.
  induction rows as [|r rows IH]; [done|].
  cbn [flat_map]. by rewrite !fmap_app, IH.
Qed.

Lemma elem_of_flat_map {A B} (f : A → list B) (l : list A) y :
  y ∈ flat_map f l ↔ ∃ x, x ∈ l ∧ y ∈ f x.
Proof.
  rewrite list_elem_of_In, in_flat_map. split.
  - intros (x & Hx & Hy). exists x. by rewrite !list_elem_of_In.
  - intros (x & Hx & Hy). exists x. by rewrite <- !list_elem_of_In.
Qed.

Lemma assemble_nodes v rows s :
  rows_ok v rows = true →
  nodes (assemble v rows s).2 = add_nodes [] (flat_map (declared_nodes v) rows).
Proof.
  intros Hok. rewrite (assemble_ok v rows s Hok). cbn [snd].
  by rewrite run_rows_nodes.
Qed.

(** X8: on rows that carry the view's columns, the keys of the assembled
    node dict are exactly the non-null ids that the rows declare: every
    entity a row names by a non-null id gets a node, and nothing else
    does. *)
Theorem node_keys_are_declared_ids
    (v : graph_view) (rows : list row) (s : state) (k : value) :
  rows_ok v rows = true →
  k ∈ dict_keys (nodes (assemble v rows s).2)
  ↔ k ≠ VNone ∧ ∃ r, r ∈ rows ∧ k ∈ declared_ids v r.
Proof.
  intros Hok. rewrite assemble_nodes by done.
  rewrite add_nodes_keys, flat_map_ids, elem_of_flat_map. cbn [dict_keys fmap list_fmap].
  rewrite elem_of_nil. tauto.
Qed.

Lemma node_keys_are_declared_ids_witness :
  rows_ok FullEcosystem [row_no_theme; row_theme] = true
  ∧ VInt 60 ∈ dict_keys (nodes (assemble FullEcosystem [row_no_theme; row_theme] start).2).
Proof.
  split; [reflexivity|].
  apply (node_keys_are_declared_ids FullEcosystem [row_no_theme; row_theme] start
           (VInt 60) eq_refl).
  split; [discriminate|]. exists row_theme.
  split; [apply list_elem_of_further, list_elem_of_here|].
  apply (bool_decide_unpack _). vm_compute. exact I.
Defined.

Lemma add_nodes_keys_order d cs :
  dict_keys (add_nodes d cs) = dict_keys d ++ fresh_ids (dict_keys d) cs.*1.*1.
Proof.
  revert d. induction cs as [|[[i l] g] cs IH]; intros d.
  - cbn. by rewrite app_nil_r.
  - rewrite add_nodes_cons, IH. cbn [fst snd fmap list_fmap fresh_ids].
    destruct (add_node_cases d i l g) as [[-> Hi]|(-> & Hn & Hf)].
    + destruct Hi as [->|Hin]; [done|].
      rewrite (bool_decide_eq_true_2 _ Hin). by rewrite orb_true_r.
    + apply is_None_false in Hn. rewrite Hn, (bool_decide_eq_false_2 _ Hf).
      cbn [orb]. unfold dict_keys. rewrite fmap_app. cbn [fmap list_fmap fst].
      by rewrite <- app_assoc.
Qed.

(** X9: on rows that carry the view's columns, the node dict lists the
    non-null declared ids in the order in which they first appear, row by
    row and within a row in the order of the [add_node] calls, each id
    once; this is the order in which the nodes are later handed to pyvis. *)
Theorem nodes_in_first_appearance_order (v : graph_view) (rows : list row) (s : state) :
  rows_ok v rows = true →
  dict_keys (nodes (assemble v rows s).2) = fresh_ids [] (flat_map (declared_ids v) rows).
Proof.
  intros Hok. by rewrite assemble_nodes, add_nodes_keys_order, flat_map_ids.
Qed.

Lemma nodes_in_first_appearance_order_witness :
  rows_ok CancerNetwork [row_null_pi; row_a; row_a'] = true
  ∧ dict_keys (nodes (assemble CancerNetwork [row_null_pi; row_a; row_a'] start).2)
    = [VInt 10; VInt 100; VInt 1; VInt 200].
Proof.
  split; [reflexivity|].
  rewrite (nodes_in_first_appearance_order CancerNetwork
             [row_null_pi; row_a; row_a'] start eq_refl).
  reflexivity.
Defined.

(** ** What the nodes look like *)

Lemma declared_group_known v r c : c ∈ declared_nodes v r → c.2 ∈ known_groups.
Proof.
  destruct v; cbn [declared_nodes]; rewrite ?elem_of_cons, elem_of_nil;
    intros Hc; repeat destruct Hc as [->|Hc]; try done;
    apply (bool_decide_unpack _); vm_compute; exact I.
Qed.

Lemma known_group_styled g :
  g ∈ known_groups → g ≠ "" ∧ group_color g ≠ "#999999".
Proof.
  unfold known_groups. rewrite ?elem_of_cons, elem_of_nil.
  intros Hg. repeat destruct Hg as [->|Hg]; try done; split; discriminate.
Qed.

Lemma node_of_label_truthy c : c.2 ≠ "" → truthy (Node.label (node_of c)) = true.
Proof.
  intros Hg. cbn [node_of Node.label]. unfold py_or.
  destruct (truthy c.1.2) eqn:Hl; [done|]. cbn [truthy].
  apply negb_true_iff. by apply String.eqb_neq.
Qed.

(** X10: whether the loop finishes or raises, every node of the assembled
    dict carries its key as id, a label that is neither null nor empty (a
    missing name falls back to the group tag), and one of the six known
    group tags, so that rendering gives it a color of the table and never
    the default "#999999". *)
Theorem nodes_are_labelled_and_styled (v : graph_view) (rows : list row) (s : state) :
  Forall (λ kn, Node.id kn.2 = kn.1
                ∧ truthy (Node.label kn.2) = true
                ∧ Node.group kn.2 ∈ known_groups
                ∧ group_color (Node.group kn.2) ≠ "#999999")
         (nodes (assemble v rows s).2).
Proof.
  apply (assemble_invariant v
    (λ s, Forall (λ kn, Node.id kn.2 = kn.1
                        ∧ truthy (Node.label kn.2) = true
                        ∧ Node.group kn.2 ∈ known_groups
                        ∧ group_color (Node.group kn.2) ≠ "#999999") (nodes s)));
    [|apply Forall_nil_2].
  intros r s'. rewrite !Forall_forall. intros Hs' [k n] Hin.
  cbn [row_step nodes] in Hin.
  apply add_nodes_elem in Hin as [Hin|(_ & c & Hc & Hid & ->)]; [by apply Hs'|].
  apply declared_group_known in Hc.
  destruct (known_group_styled _ Hc) as [Hne Hcolor]. cbn [fst snd].
  split_and!; [done | by apply node_of_label_truthy | done | done].
Qed.

(** ** How large the graph can get *)

Lemma add_nodes_length d cs :
  (length (add_nodes d cs) ≤ length d + length cs)%nat.
Proof.
  revert d. induction cs as [|[[i l] g] cs IH]; intros d; [cbn; lia|].
  rewrite add_nodes_cons. etrans; [apply IH|]. cbn [fst snd length].
  destruct (add_node_cases d i l g) as [[-> _]|(-> & _ & _)]; [lia|].
  rewrite length_app. cbn. lia.
Qed.

Lemma declared_nodes_length v r : length (declared_nodes v r) = triplets_per_row v.
Proof. by destruct v. Qed.

Lemma appended_edges_length v r :
  (length (appended_edges v r) ≤ pairs_per_row v)%nat.
Proof.
  destruct v; cbn [appended_edges]; try done.
  etrans; [apply List.filter_length_le | done].
Qed.

(** X11: whether the loop finishes or raises, the node dict has at most
    three entries per row in the cancer-network and multi-organization
    views, four in the MSU view and six in the full-ecosystem view, and the
    full-ecosystem edge list has at most five edges per row (two and three
    in the other views). *)
Theorem graph_size_bounds (v : graph_view) (rows : list row) (s : state) :
  (length (nodes (assemble v rows s).2) ≤ triplets_per_row v * length rows)%nat
  ∧ (length (edges (assemble v rows s).2) ≤ pairs_per_row v * length rows)%nat.
Proof.
  rewrite assemble_run. generalize (page s). intros p.
  assert (∀ rows s0,
    (length (nodes (for_each (loop_body v) rows s0).2)
       ≤ length (nodes s0) + triplets_per_row v * length rows)%nat
    ∧ (length (edges (for_each (loop_body v) rows s0).2)
       ≤ length (edges s0) + pairs_per_row v * length rows)%nat) as Hgen.
  { clear rows. intros rows. induction rows as [|r rows IH]; intros s0.
    - cbn. lia.
    - rewrite for_each_cons, bind_run, body_run.
      destruct (has_columns v r); cbn [length snd]; [|lia].
      destruct (IH (row_step v r s0)) as [Hn He]. cbn [row_step nodes edges] in Hn, He.
      pose proof (add_nodes_length (nodes s0) (declared_nodes v r)) as Hadd.
      rewrite declared_nodes_length in Hadd.
      pose proof (appended_edges_length v r) as Happ.
      rewrite length_app in He. split; lia. }
  apply (Hgen rows (State [] [] p)).
Qed.

(** ** From the graph to the page *)

Lemma added_edges_app p q : added_edges (p ++ q) = added_edges p ++ added_edges q.
Proof. apply omap_app. Qed.

Lemma added_node_ids_app p q :
  added_node_ids (p ++ q) = added_node_ids p ++ added_node_ids q.
Proof. apply omap_app. Qed.

Lemma added_edges_node_calls l : added_edges (node_call <$> l) = [].
Proof. by induction l. Qed.

Lemma added_edges_edge_calls es : added_edges (edge_call <$> es) = es.
Proof. induction es as [|[a b] es IH]; [done|]. cbn. by f_equal. Qed.

Lemma added_node_ids_node_calls l : added_node_ids (node_call <$> l) = Node.id <$> l.
Proof. induction l as [|n l IH]; [done|]. cbn. by f_equal. Qed.

Lemma added_node_ids_edge_calls es : added_node_ids (edge_call <$> es) = [].
Proof. by induction es. Qed.

Lemma rendering_edges d es title :
  added_edges (rendering d es title)
  = match d with
    | [] => []
    | _ :: _ => if forallb node_ok (dict_values d)
                then passed (edge_ok (Node.id <$> dict_values d)) es
                else []
    end.
Proof.
  destruct d as [|kn d]; [done|]. unfold rendering.
  rewrite !added_edges_app, added_edges_node_calls.
  destruct (forallb node_ok (dict_values (kn :: d))); [|done].
  rewrite added_edges_app, added_edges_edge_calls.
  destruct (forallb (edge_ok _) es); cbn; by rewrite app_nil_r.
Qed.

Lemma rendering_node_ids d es title :
  added_node_ids (rendering d es title) = Node.id <$> passed node_ok (dict_values d).
Proof.
  destruct d as [|kn d]; [done|]. unfold rendering.
  rewrite !added_node_ids_app, added_node_ids_node_calls.
  destruct (forallb node_ok (dict_values (kn :: d))); cbn [added_node_ids omap list_omap app];
    [|by rewrite app_nil_r].
  rewrite added_node_ids_app, added_node_ids_edge_calls.
  destruct (forallb (edge_ok _) es); cbn; by rewrite app_nil_r.
Qed.

Lemma filter_network_node_calls l : List.filter is_Network_new (node_call <$> l) = [].
Proof. by induction l. Qed.

Lemma filter_network_edge_calls es : List.filter is_Network_new (edge_call <$> es) = [].
Proof. by induction es. Qed.

(** X12: on a node dict that is not empty, has no null id, and with an edge
    list whose ends are all ids of its nodes (the two pyvis assertions),
    [build_and_render_network] returns normally after constructing one
    undirected network, calling [net.add_node] with the id of every node in
    dict order and then [net.add_edge] with every pair of the edge list,
    in order and with its repetitions: the calls made to pyvis are the
    assembled graph, nothing dropped, merged or added. *)
Theorem render_hands_graph_to_pyvis
    (d : node_dict) (es : list edge) (title : string) (s : state) :
  d ≠ [] →
  Forall (λ n, Node.id n ≠ VNone) (dict_values d) →
  Forall (λ e, e.1 ∈ Node.id <$> dict_values d ∧ e.2 ∈ Node.id <$> dict_values d) es →
  ∃ new,
    build_and_render_network d es title s = (inr tt, set_page (page s ++ new) s)
    ∧ List.filter is_Network_new new
      = [Network_new "700px" "100%" "#FFFFFF" "#000000" false]
    ∧ added_node_ids new = Node.id <$> dict_values d
    ∧ added_edges new = es
    ∧ ∃ tail, new = [Network_new "700px" "100%" "#FFFFFF" "#000000" false; net_barnes_hut]
                    ++ (node_call <$> dict_values d) ++ (edge_call <$> es) ++ tail.
Proof.
  intros Hd Hids Hes. exists (rendering d es title).
  rewrite build_and_render_network_run, rendering_node_ids, rendering_edges.
  destruct (render_sound d es title Hids Hes) as [-> ->].
  rewrite (forallb_node_ok _ Hids), !passed_all
    by (by apply forallb_node_ok || by apply forallb_edge_ok).
  destruct d as [|kn d]; [done|]. split_and!; try done.
  - rewrite !List.filter_app, filter_network_node_calls, filter_network_edge_calls.
    reflexivity.
  - by eexists.
Qed.

Lemma render_hands_graph_to_pyvis_witness :
  add_node [] (VInt 1) (VStr "A") "pi" ≠ []
  ∧ ∃ new,
      build_and_render_network (add_node [] (VInt 1) (VStr "A") "pi")
        [(VInt 1, VInt 1); (VInt 1, VInt 1)] "t" start
      = (inr tt, set_page (page start ++ new) start)
      ∧ added_edges new = [(VInt 1, VInt 1); (VInt 1, VInt 1)].
Proof.
  split; [discriminate|].
  destruct (render_hands_graph_to_pyvis (add_node [] (VInt 1) (VStr "A") "pi")
              [(VInt 1, VInt 1); (VInt 1, VInt 1)] "t" start)
    as (new & Hrun & _ & _ & Hedges & _).
  - discriminate.
  - repeat constructor. discriminate.
  - repeat constructor; apply list_elem_of_here.
  - exists new. split; [exact Hrun | exact Hedges].
Defined.

Lemma passed_app {A} (ok : A → bool) l x l' :
  forallb ok l = true → ok x = false → passed ok (l ++ x :: l') = l.
Proof.
  induction l as [|y l IH]; simpl.
  - by intros _ ->.
  - intros [Hy Hl]%andb_true_iff Hx. rewrite Hy. by rewrite IH.
Qed.

Lemma forallb_app_false {A} (ok : A → bool) l x l' :
  ok x = false → forallb ok (l ++ x :: l') = false.
Proof.
  intros Hx. induction l as [|y l IH]; simpl.
  - by rewrite Hx.
  - rewrite IH. apply andb_false_r.
Qed.

(** X15: on a node dict that is not empty and has no null id, an edge list
    whose first pair with an end that is no node id is [e] makes
    [build_and_render_network] raise pyvis's [AssertionError] at [e]: the
    network has been constructed, every node and the pairs before [e] have
    been handed over, and nothing after that happens: no options, no saved
    file, no subheader, caption or embedded graph on the page. *)
Theorem render_stops_at_dangling_edge
    (d : node_dict) (pre : list edge) (e : edge) (post : list edge)
    (title : string) (s : state) :
  d ≠ [] →
  Forall (λ n, Node.id n ≠ VNone) (dict_values d) →
  Forall (λ e', e'.1 ∈ Node.id <$> dict_values d
                ∧ e'.2 ∈ Node.id <$> dict_values d) pre →
  ¬ (e.1 ∈ Node.id <$> dict_values d ∧ e.2 ∈ Node.id <$> dict_values d) →
  build_and_render_network d (pre ++ e :: post) title s
  = (inl AssertionError,
     set_page (page s
               ++ [Network_new "700px" "100%" "#FFFFFF" "#000000" false; net_barnes_hut]
               ++ (node_call <$> dict_values d) ++ (edge_call <$> pre)) s).
Proof.
  intros Hd Hids%forallb_node_ok Hpre%forallb_edge_ok He.
  assert (edge_ok (Node.id <$> dict_values d) e = false) as Hbad.
  { unfold edge_ok. apply andb_false_iff.
    destruct (decide (e.1 ∈ Node.id <$> dict_values d)) as [H1|H1];
      [|left; by apply bool_decide_eq_false_2].
    right. apply bool_decide_eq_false_2. tauto. }
  rewrite build_and_render_network_run.
  destruct d as [|kn d]; [done|]. unfold render_outcome, rendering.
  rewrite Hids, (forallb_app_false _ _ _ _ Hbad), (passed_app _ _ _ _ Hpre Hbad).
  rewrite (passed_all _ _ Hids). cbn [andb]. by rewrite app_nil_r.
Qed.

Lemma render_stops_at_dangling_edge_witness :
  add_node [] (VInt 10) (VStr "G1") "grant" ≠ []
  ∧ build_and_render_network (add_node [] (VInt 10) (VStr "G1") "grant")
      ([(VInt 10, VInt 10)] ++ (VNone, VInt 10) :: [(VInt 10, VInt 10)]) "t" start
    = (inl AssertionError,
       set_page [Network_new "700px" "100%" "#FFFFFF" "#000000" false; net_barnes_hut;
                 net_add_node (VInt 10) (VStr "G1") "#F4A259" (Tooltip "grant" (VStr "G1"));
                 net_add_edge (VInt 10) (VInt 10)] start).
Proof.
  split; [discriminate|].
  apply (render_stops_at_dangling_edge (add_node [] (VInt 10) (VStr "G1") "grant")
           [(VInt 10, VInt 10)] (VNone, VInt 10) [(VInt 10, VInt 10)] "t" start).
  - discriminate.
  - repeat constructor. discriminate.
  - repeat constructor; apply list_elem_of_here.
  - intros [Hsrc _]. apply elem_of_cons in Hsrc as [?|Hsrc]; [done|].
    by apply elem_of_nil in Hsrc.
Defined.

Lemma keyed_ids (d : node_dict) : keyed d → Node.id <$> dict_values d = dict_keys d.
Proof.
  unfold keyed, dict_values, dict_keys. induction 1 as [|[k n] d Hid Hd IH]; [done|].
  cbn in *. by rewrite Hid, IH.
Qed.

Lemma assemble_keyed v rows s : keyed (nodes (assemble v rows s).2).
Proof.
  apply (assemble_nodes_inv v keyed); [|apply Forall_nil_2].
  intros d i l g. apply add_node_keyed.
Qed.

Lemma assemble_endpoints v rows s :
  Forall (λ e, (e.1 = VNone ∨ e.1 ∈ dict_keys (nodes (assemble v rows s).2))
               ∧ (e.2 = VNone ∨ e.2 ∈ dict_keys (nodes (assemble v rows s).2)))
         (edges (assemble v rows s).2).
Proof.
  apply (assemble_invariant v
           (λ s, Forall (λ e, (e.1 = VNone ∨ e.1 ∈ dict_keys (nodes s))
                              ∧ (e.2 = VNone ∨ e.2 ∈ dict_keys (nodes s)))
                        (edges s))).
  - intros r s'. apply row_step_endpoints.
  - apply Forall_nil_2.
Qed.

Lemma assemble_edges_non_null v rows s :
  v = FullEcosystem
  ∨ Forall (λ r, Forall (λ c, c.1.1 ≠ VNone) (declared_nodes v r)) rows →
  Forall (λ e, both_non_null e = true) (edges (assemble v rows s).2).
Proof.
  intros [->|Hrows]; [apply full_ecosystem_non_null|].
  rewrite assemble_run.
  apply (for_each_invariant_on v
           (λ s, Forall (λ e, both_non_null e = true) (edges s)) _ rows Hrows).
  - intros r s' Hr Hs'. cbn [row_step edges]. apply Forall_app. split; [done|].
    apply Forall_forall. intros e. by apply declared_null_free.
  - apply Forall_nil_2.
Qed.

Lemma assemble_ids_non_null v rows s :
  Forall (λ n, Node.id n ≠ VNone) (dict_values (nodes (assemble v rows s).2)).
Proof.
  assert ((VNone ∉ dict_keys (nodes (assemble v rows s).2))
          ∧ keyed (nodes (assemble v rows s).2)) as [Hnull Hkeyed].
  { apply (assemble_nodes_inv v (λ d, (VNone ∉ dict_keys d) ∧ keyed d)).
    - intros d i l g [Hd Hk]. split; [|by apply add_node_keyed].
      rewrite add_node_keys. intros [?|[-> ?]]; done.
    - split; [apply not_elem_of_nil | apply Forall_nil_2]. }
  rewrite <- (keyed_ids _ Hkeyed) in Hnull. apply Forall_forall. intros n Hn Hid.
  apply Hnull. rewrite <- Hid. apply list_elem_of_fmap. eauto.
Qed.

(** What the guarded view, or rows without null ids, assemble passes both
    pyvis assertions. *)
Lemma assemble_renders v rows s :
  v = FullEcosystem
  ∨ Forall (λ r, Forall (λ c, c.1.1 ≠ VNone) (declared_nodes v r)) rows →
  Forall (λ e, e.1 ∈ Node.id <$> dict_values (nodes (assemble v rows s).2)
               ∧ e.2 ∈ Node.id <$> dict_values (nodes (assemble v rows s).2))
         (edges (assemble v rows s).2).
Proof.
  intros Hcase. rewrite (keyed_ids _ (assemble_keyed v rows s)).
  pose proof (assemble_endpoints v rows s) as Hends.
  pose proof (assemble_edges_non_null v rows s Hcase) as Hnn.
  rewrite Forall_forall in Hnn, Hends. apply Forall_forall. intros e Hin.
  destruct (Hends e Hin) as [Ha Hb].
  apply Hnn, both_non_null_true in Hin as [? ?]. tauto.
Qed.



Lemma rendering_one_network kn d es title :
  List.filter is_Network_new (rendering (kn :: d) es title)
  = [Network_new "700px" "100%" "#FFFFFF" "#000000" false].
Proof.
  unfold rendering.
  rewrite !List.filter_app, filter_network_node_calls.
  destruct (forallb node_ok _); [|done].
  rewrite List.filter_app, filter_network_edge_calls.
  by destruct (forallb (edge_ok _) es).
Qed.

Lemma assemble_keys v rows s k :
  rows_ok v rows = true →
  k ∈ dict_keys (nodes (assemble v rows s).2)
  ↔ k ≠ VNone ∧ ∃ r, r ∈ rows ∧ k ∈ declared_ids v r.
Proof.
  intros Hok. rewrite assemble_nodes by done.
  rewrite add_nodes_keys, flat_map_ids, elem_of_flat_map. cbn [dict_keys fmap list_fmap].
  rewrite elem_of_nil. tauto.
Qed.

(** X14: on rows that are there and carry the view's columns, when every
    declared id of every row is null the assembled dict is empty and the
    view returns normally with, after the description and the count
    notice, only the "no nodes" warning on the page; as soon as one
    declared id is non-null exactly one network is constructed (whether
    the rendering then reaches its end or stops at a pyvis assertion). *)
Theorem network_needs_a_non_null_id
    (v : graph_view) (r : row) (rows : list row) (s : state) :
  rows_ok v (r :: rows) = true →
  (Forall (λ r', Forall (λ i, i = VNone) (declared_ids v r')) (r :: rows) →
     (app (view_name v) (r :: rows) s).1 = inr tt
     ∧ page (app (view_name v) (r :: rows) s).2
       = page s ++ [st_markdown (view_doc v);
                    st_success (loaded_notice v (length (r :: rows)));
                    st_warning "No nodes to display for this query."])
  ∧ (Exists (λ r', Exists (λ i, i ≠ VNone) (declared_ids v r')) (r :: rows) →
     ∃ new, page (app (view_name v) (r :: rows) s).2 = page s ++ new
            ∧ List.filter is_Network_new new
              = [Network_new "700px" "100%" "#FFFFFF" "#000000" false]).
Proof.
  intros Hok. rewrite graph_view_run. cbn zeta. set (s1 := set_page _ s).
  pose proof (assemble_page v (r :: rows) s1) as Hpage.
  pose proof (λ k, assemble_keys v (r :: rows) s1 k Hok) as Hkeys.
  pose proof (proj2 (for_each_outcome v (r :: rows) (State [] [] (page s1))) Hok) as Hret.
  rewrite <- assemble_run in Hret.
  destruct (assemble v (r :: rows) s1) as [[e|[]] s2]; [done|].
  cbn [fst snd page set_page] in *. split.
  - intros Hnull. destruct (nodes s2) as [|[k n] d] eqn:Hd.
    + cbn [render_outcome rendering fst snd page set_page]. split; [done|].
      rewrite Hpage. subst s1. cbn [page set_page]. by rewrite <- app_assoc.
    + exfalso.
      destruct (proj1 (Hkeys k)) as (Hk & r' & Hr' & Hid); [apply list_elem_of_here|].
      rewrite Forall_forall in Hnull. specialize (Hnull r' Hr').
      rewrite Forall_forall in Hnull. by apply Hk, Hnull.
  - intros (r' & Hr' & (i & Hi & Hnn)%Exists_exists)%Exists_exists.
    assert (i ∈ dict_keys (nodes s2)) as Hin by (apply Hkeys; eauto).
    rewrite Hpage. subst s1. cbn [page set_page]. rewrite <- app_assoc.
    destruct (nodes s2) as [|kn d]; [by apply elem_of_nil in Hin|].
    eexists. split; [reflexivity|]. cbn [app List.filter is_Network_new].
    apply rendering_one_network.
Qed.

Lemma network_needs_a_non_null_id_witness :
  rows_ok CancerNetwork [row_all_null] = true
  ∧ page (app (view_name CancerNetwork) [row_all_null] start).2
    = [st_markdown view2_doc;
       st_success "Loaded 1 PI–grant–org rows.";
       st_warning "No nodes to display for this query."].
Proof.
  split; [reflexivity|].
  destruct (network_needs_a_non_null_id CancerNetwork row_all_null [] start eq_refl)
    as (Hnull & _).
  destruct Hnull as [_ Hpage]; [|by rewrite Hpage].
  apply Forall_cons. split; [|constructor].
  repeat (apply Forall_cons; split; [reflexivity|]). constructor.
Defined.

(** ** When a run of the script gets through *)

Lemma forallb_false_elem {A} (ok : A → bool) l :
  forallb ok l = false → ∃ x, x ∈ l ∧ ok x = false.
Proof.
  induction l as [|x l IH]; [done|]. cbn [forallb].
  destruct (ok x) eqn:Hx.
  - intros (y & Hy & Hbad)%IH. exists y. split; [by apply list_elem_of_further | done].
  - intros _. exists x. split; [apply list_elem_of_here | done].
Qed.

Lemma forallb_elem_false {A} (ok : A → bool) l x :
  x ∈ l → ok x = false → forallb ok l = false.
Proof.
  intros Hx Hbad. destruct (forallb ok l) eqn:Hall; [|done].
  rewrite forallb_forall in Hall. rewrite <- Hbad. symmetry. apply Hall.
  by apply list_elem_of_In.
Qed.

Lemma all_ids_false p v rows :
  all_ids p v rows = false →
  ∃ r i, r ∈ rows ∧ i ∈ declared_ids v r ∧ p i = false.
Proof.
  intros (r & Hr & (i & Hi & Hp)%forallb_false_elem)%forallb_false_elem. eauto.
Qed.

Lemma all_ids_non_null v rows :
  all_ids non_null v rows = true →
  Forall (λ r, Forall (λ c, c.1.1 ≠ VNone) (declared_nodes v r)) rows.
Proof.
  unfold all_ids. rewrite forallb_forall. intros Hall.
  apply Forall_forall. intros r Hr%list_elem_of_In. specialize (Hall r Hr).
  rewrite forallb_forall in Hall. apply Forall_forall. intros c Hc.
  apply is_None_false, negb_true_iff. apply Hall, list_elem_of_In.
  unfold declared_ids. rewrite <- list_fmap_compose. apply list_elem_of_fmap. eauto.
Qed.

(** Outside the full-ecosystem view every declared id is an end of a pair
    the same row appends. *)
Lemma declared_id_is_endpoint v r i :
  v ≠ FullEcosystem → i ∈ declared_ids v r →
  ∃ e, e ∈ appended_edges v r ∧ (e.1 = i ∨ e.2 = i).
Proof.
  intros Hv. destruct v; try done; unfold declared_ids;
    cbn [declared_nodes appended_edges declared_edges fmap list_fmap fst];
    rewrite ?elem_of_cons, elem_of_nil; intros Hi;
    repeat destruct Hi as [->|Hi]; try done;
    first
      [ eexists; split; [apply list_elem_of_here | by (left + right)]
      | eexists; split;
          [apply list_elem_of_further, list_elem_of_here | by (left + right)]
      | eexists; split;
          [do 2 apply list_elem_of_further; apply list_elem_of_here
          | by (left + right)] ].
Qed.

(** How the rendering of an assembled graph ends. *)
Lemma assembled_render_outcome v rows s :
  rows_ok v rows = true →
  render_outcome (nodes (assemble v rows s).2) (edges (assemble v rows s).2) = inr tt
  ↔ v = FullEcosystem ∨ all_ids is_None v rows = true ∨ all_ids non_null v rows = true.
Proof.
  intros Hok.
  pose proof (assemble_ids_non_null v rows s) as Hids.
  pose proof (λ k, assemble_keys v rows s k Hok) as Hkeys.
  assert (v = FullEcosystem ∨ all_ids non_null v rows = true →
          render_outcome (nodes (assemble v rows s).2) (edges (assemble v rows s).2)
          = inr tt) as Hsound.
  { intros Hcase. eapply (render_sound _ _ ""); [done|].
    apply assemble_renders. destruct Hcase as [?|?%all_ids_non_null]; auto. }
  split.
  - intros Hret.
    destruct (decide (v = FullEcosystem)) as [?|Hv]; [by left|]. right.
    destruct (all_ids is_None v rows) eqn:Hnull; [by left|]. right.
    destruct (all_ids non_null v rows) eqn:Hnn; [done|]. exfalso.
    apply all_ids_false in Hnull as (r1 & i1 & Hr1 & Hi1 & Hnone1).
    apply all_ids_false in Hnn as (r2 & i2 & Hr2 & Hi2 & Hnone2).
    apply is_None_false in Hnone1.
    unfold non_null in Hnone2. apply negb_false_iff, is_None_true in Hnone2. subst i2.
    assert (i1 ∈ dict_keys (nodes (assemble v rows s).2)) as Hkey by (apply Hkeys; eauto).
    destruct (declared_id_is_endpoint v r2 VNone Hv Hi2) as (e & He & Hend).
    assert (e ∈ edges (assemble v rows s).2) as Hin.
    { rewrite assemble_edges by done. exact (elem_of_flat_map_2 _ _ r2 e Hr2 He). }
    rewrite <- (keyed_ids _ (assemble_keyed v rows s)) in Hkey.
    assert (VNone ∉ Node.id <$> dict_values (nodes (assemble v rows s).2)) as Hno.
    { intros (n & Hid & Hn)%list_elem_of_fmap.
      rewrite Forall_forall in Hids. by apply (Hids n Hn). }
    assert (edge_ok (Node.id <$> dict_values (nodes (assemble v rows s).2)) e = false)
      as Hbad.
    { unfold edge_ok. apply andb_false_iff.
      destruct Hend as [Hend|Hend]; [left|right];
        apply bool_decide_eq_false_2; by rewrite Hend. }
    unfold render_outcome in Hret.
    destruct (nodes (assemble v rows s).2) as [|kn d]; [by apply elem_of_nil in Hkey|].
    rewrite (forallb_elem_false _ _ _ Hin Hbad), andb_false_r in Hret. done.
  - intros [Hv|[Hnull|Hnn]]; [by apply Hsound; left | | by apply Hsound; right].
    destruct (nodes (assemble v rows s).2) as [|[k n] d] eqn:Hd; [done|]. exfalso.
    destruct (proj1 (Hkeys k)) as (Hk & r' & Hr' & Hid); [apply list_elem_of_here|].
    unfold all_ids in Hnull. rewrite forallb_forall in Hnull.
    apply list_elem_of_In in Hr'. specialize (Hnull r' Hr').
    rewrite forallb_forall in Hnull. apply list_elem_of_In in Hid.
    by apply Hk, is_None_true, Hnull.
Qed.

(** X4: the script returns normally exactly in these cases.  In the table
    view: there are no rows, or the dataframe of the rows has both chart
    columns [pi_name] and [grants_led].  In a graph view: every row
    carries the view's columns and, outside the full-ecosystem view, the
    ids the rows declare are all null (nothing is rendered) or all
    non-null; a mix of null and non-null ids in the three unguarded views
    ends in pyvis's [AssertionError]. *)
Theorem app_returns_iff (rows : list row) (s : state) :
  ((app "Top 10 PIs by Grants Led" rows s).1 = inr tt
   ↔ rows = []
     ∨ (df_has_column rows "pi_name" = true ∧ df_has_column rows "grants_led" = true))
  ∧ (∀ v, (app (view_name v) rows s).1 = inr tt
          ↔ rows_ok v rows = true
            ∧ (v = FullEcosystem
               ∨ all_ids is_None v rows = true
               ∨ all_ids non_null v rows = true)).
Proof.
  split.
  - change (app "Top 10 PIs by Grants Led" rows s) with (view1 rows s).
    destruct rows as [|r rows]; [by split; [left|]|].
    rewrite view1_run, <- andb_true_iff.
    destruct (df_has_column (r :: rows) "pi_name"
              && df_has_column (r :: rows) "grants_led"); cbn [fst].
    + split; [by right | done].
    + split; [done | by intros [?|?]].
  - intros v. destruct rows as [|r rows].
    { rewrite graph_view_empty_run. split; [|done]. intros _. split; [done|].
      right. by left. }
    rewrite graph_view_run. cbn zeta. set (s1 := set_page _ s).
    destruct (rows_ok v (r :: rows)) eqn:Hok.
    + pose proof (assembled_render_outcome v (r :: rows) s1 Hok) as Hrender.
      pose proof (proj2 (for_each_outcome v (r :: rows) (State [] [] (page s1))) Hok)
        as Hret.
      rewrite <- assemble_run in Hret.
      destruct (assemble v (r :: rows) s1) as [[e|[]] s2]; [done|].
      cbn [fst snd] in *. rewrite Hrender. tauto.
    + destruct (for_each_raise v (r :: rows) (State [] [] (page s1)) Hok)
        as (r' & _ & _ & Hraise).
      rewrite <- assemble_run in Hraise.
      destruct (assemble v (r :: rows) s1) as [[e|[]] s2]; cbn [fst] in *; [|done].
      split; [done | by intros [? _]].
Qed.
